(** * A QR code generator page: shallow embedding of [qr.py]

    The program is a Streamlit page around two libraries: [qrcode] builds the
    symbol and rasterises it, PIL serialises the picture to PNG.  The
    embedding keeps the three functions of the source, [generate_qr_code],
    [get_image_download_link] and [main], as computations in a small monad
    that threads the list of Streamlit calls made so far and carries Python
    exceptions.  What the libraries compute is a parameter ([Library]). *)

From Stdlib Require Import ZArith NArith List String Ascii Bool Lia DecimalString.
Import ListNotations.

Set Implicit Arguments.

(** ** Python values *)

(** A Python [str] is a sequence of Unicode code points, a [bytes] object a
    sequence of octets. *)
Definition pystr := list N.
Definition pybytes := list N.

(** An ASCII literal of the source. *)
Definition lit (s : string) : pystr := map N_of_ascii (list_ascii_of_string s).
Arguments lit s%_string.

Definition QUOTE : N := 34.
Definition NL : N := 10.

(** [str.isspace] on one code point: the characters [str.strip()] removes. *)
Definition isspace (c : N) : bool :=
  ((9 <=? c) && (c <=? 13) || (28 <=? c) && (c <=? 32)
   || (c =? 133) || (c =? 160) || (c =? 5760)
   || (8192 <=? c) && (c <=? 8202)
   || (c =? 8232) || (c =? 8233) || (c =? 8239) || (c =? 8287)
   || (c =? 12288))%N.

Fixpoint lstrip (s : pystr) : pystr :=
  match s with
  | c :: s' => if isspace c then lstrip s' else s
  | [] => []
  end.

Definition rstrip (s : pystr) : pystr := rev (lstrip (rev s)).

(** [s.strip()] *)
Definition strip (s : pystr) : pystr := rstrip (lstrip s).

(** Truth value of a [str]: non-empty. *)
Definition truthy (s : pystr) : bool :=
  match s with [] => false | _ :: _ => true end.

(** [s.lower()] on the ASCII letters; the source applies it to the labels of
    the size selector only, which are ASCII. *)
Definition lower_char (c : N) : N :=
  if ((65 <=? c) && (c <=? 90))%N then (c + 32)%N else c.
Definition lower (s : pystr) : pystr := map lower_char s.

Definition pystr_eqb (a b : pystr) : bool :=
  if list_eq_dec N.eq_dec a b then true else false.

(** ** Exceptions *)

Inductive exn : Type :=
| LibraryError (msg : pystr)   (* an [Exception] raised inside qrcode or PIL *)
| KeyError (key : pystr).      (* a [dict] subscript that misses *)

(** [str(e)].  For a [KeyError] it is the [repr] of the key, written here for
    keys that [repr] leaves unescaped. *)
Definition str (e : exn) : pystr :=
  match e with
  | LibraryError msg => msg
  | KeyError key => lit "'" ++ key ++ lit "'"
  end.

(** ** Pictures *)

Inductive color := Black | White.

(** A raster picture, as a list of pixel rows. *)
Definition Image := list (list color).

Definition height (img : Image) : nat := List.length img.
Definition width (img : Image) : nat := List.length (hd [] img).

(** The module matrix of a symbol: [true] is a dark module. *)
Definition matrix := list (list bool).

Inductive ErrorCorrection :=
| ERROR_CORRECT_L | ERROR_CORRECT_M | ERROR_CORRECT_Q | ERROR_CORRECT_H.

(** The [qrcode.QRCode] object. *)
Record QRCode := mkQRCode {
  version : Z;
  error_correction : ErrorCorrection;
  box_size : Z;
  border : Z;
  data_list : list pystr;
  modules : matrix
}.

(** ** What the page does: Streamlit calls and calls into the QR library *)

Inductive image_width := use_column_width | width_px (w : Z).

Inductive event : Type :=
| set_page_config (page_title page_icon layout : pystr)
| title (body : pystr)
| markdown (body : pystr) (unsafe_allow_html : bool)
| header (body : pystr)
| text_area (label : pystr) (height : Z) (placeholder : pystr)
| columns (n : Z)
| enter_column (i : Z)
| exit_column
| selectbox (label : pystr) (options : list pystr) (index : Z)
| slider (label : pystr) (min_value max_value value : Z) (help : pystr)
| enter_spinner (text : pystr)
| exit_spinner
| image (png : pybytes) (caption : pystr) (w : image_width)
| info (body : pystr)
| error (body : pystr)
| caption (body : pystr)
| enter_expander (label : pystr)
| exit_expander
| code (body : pystr)
(* calls into the QR library, logged where the source makes them *)
| call_QRCode (version : Z) (ec : ErrorCorrection) (box_size border : Z)
| call_make (data_list : list pystr) (fit : bool).

Definition trace := list event.

(** ** The monad: a trace that grows, and exceptions *)

Inductive outcome (A : Type) : Type :=
| Returned (a : A)
| Raised (e : exn).
Arguments Raised {A} e.

Definition M (A : Type) : Type := trace -> outcome A * trace.

Definition ret {A} (a : A) : M A := fun t => (Returned a, t).

Definition bind {A B} (m : M A) (k : A -> M B) : M B :=
  fun t =>
    match m t with
    | (Returned a, t') => k a t'
    | (Raised e, t') => (Raised e, t')
    end.

Definition raise {A} (e : exn) : M A := fun t => (Raised e, t).

(** [try: body except Exception as e: handler e] *)
Definition try_except {A} (body : M A) (handler : exn -> M A) : M A :=
  fun t =>
    match body t with
    | (Returned a, t') => (Returned a, t')
    | (Raised e, t') => handler e t'
    end.

Definition emit (ev : event) : M unit := fun t => (Returned tt, t ++ [ev]).

(** [with enter: body], the exit running on every way out. *)
Definition with_block {A} (enter exit : event) (body : M A) : M A :=
  fun t =>
    let '(r, t') := body (t ++ [enter]) in (r, t' ++ [exit]).

Definition lift {A} (r : exn + A) : M A :=
  match r with
  | inl e => raise e
  | inr a => ret a
  end.

Declare Scope py_scope.
Delimit Scope py_scope with py.
Notation "x <- m ;; k" := (bind m (fun x => k))
  (at level 61, m at next level, right associativity) : py_scope.
Notation "m ;; k" := (bind m (fun _ => k))
  (at level 61, right associativity) : py_scope.
Open Scope py_scope.

(** ** The libraries *)

(** What [qrcode] and PIL compute, as far as the page depends on it.
    - [lib_check] is the validation [QRCode(...)] does on [box_size] and
      [border]: the exception it raises, if any.
    - [lib_symbol] is [make(fit)]: the module matrix for the data added so
      far, at the requested version and error correction level, or the
      exception raised (data that fits no version, for one).
    - [lib_png] is [Image.save(buffer, format="PNG")], taken as a function of
      the picture: a picture that is saved twice in one render cycle, as the
      branch for a non-blank input does, is serialised the same way, or
      refused the same way, both times.  A second save that fails after a
      first that worked is outside this model. *)
Record Library := mkLibrary {
  lib_check : Z -> Z -> option exn;
  lib_symbol : Z -> ErrorCorrection -> bool -> list pystr -> exn + matrix;
  lib_png : Image -> exn + pybytes
}.

(** Modelled from the spec: the rasterisation inside [make_image] of the
    external qrcode library, which is not part of the repository.  The glossary
    fixes it: the module size is the pixel width and height of each block of
    the symbol, the border the number of blank modules around the symbol on all
    sides; the symbol is drawn in the fill colour on the background colour.
    [draw_module] is one module over one pixel row. *)
Definition draw_module (px : nat) (fill back : color) (m : bool) : list color :=
  repeat (if m then fill else back) px.

(** Modelled from the spec: one pixel row of the picture, for the row [r] of
    modules between two margins of [margin] blank pixels. *)
Definition draw_row (px margin : nat) (fill back : color) (r : list bool)
  : list color :=
  repeat back margin ++ flat_map (draw_module px fill back) r ++ repeat back margin.

(** Modelled from the spec: the picture of the symbol [m] at [px] pixels a
    module behind a border of [bd] modules: [bd * px] blank rows, [px] pixel
    rows for each row of modules, [bd * px] blank rows. *)
Definition render (px bd : nat) (fill back : color) (m : matrix) : Image :=
  let side := ((List.length m + 2 * bd) * px)%nat in
  let blank := repeat back side in
  repeat blank (bd * px)
  ++ flat_map (fun r => repeat (draw_row px (bd * px) fill back r) px) m
  ++ repeat blank (bd * px).

(** Modelled from the spec: the base64 encoding, done in the source by
    [base64.b64encode] of the Python library.  Three octets become four
    characters of the alphabet, a last group of one or two octets is padded
    with [=]. *)
Definition b64_alphabet : pystr :=
  lit "ABCDEFGHIJKLMNOPQRSTUVWXYZabcdefghijklmnopqrstuvwxyz0123456789+/".

Definition PAD : N := 61.

Definition b64_char (i : N) : N := nth (N.to_nat i) b64_alphabet PAD.

(** [base64.b64encode(bs).decode()] *)
Fixpoint b64encode (bs : pybytes) : pystr :=
  match bs with
  | [] => []
  | [a] =>
      [b64_char (N.shiftr a 2); b64_char (N.shiftl (N.land a 3) 4); PAD; PAD]
  | [a; b] =>
      [b64_char (N.shiftr a 2);
       b64_char (N.lor (N.shiftl (N.land a 3) 4) (N.shiftr b 4));
       b64_char (N.shiftl (N.land b 15) 2); PAD]
  | a :: b :: c :: rest =>
      b64_char (N.shiftr a 2)
      :: b64_char (N.lor (N.shiftl (N.land a 3) 4) (N.shiftr b 4))
      :: b64_char (N.lor (N.shiftl (N.land b 15) 2) (N.shiftr c 6))
      :: b64_char (N.land c 63)
      :: b64encode rest
  end.

Section Page.

Variable L : Library.

(** *** The QR object *)

(** [qrcode.QRCode(version, error_correction, box_size, border)] *)
Definition QRCode_new (v : Z) (ec : ErrorCorrection) (bs bd : Z) : M QRCode :=
  emit (call_QRCode v ec bs bd) ;;
  match lib_check L bs bd with
  | Some e => raise e
  | None => ret (mkQRCode v ec bs bd [] [])
  end.

(** [qr.add_data(data)] *)
Definition add_data (qr : QRCode) (data : pystr) : QRCode :=
  mkQRCode (version qr) (error_correction qr) (box_size qr) (border qr)
           (data_list qr ++ [data]) (modules qr).

(** [qr.make(fit)] *)
Definition make (qr : QRCode) (fit : bool) : M QRCode :=
  emit (call_make (data_list qr) fit) ;;
  m <- lift (lib_symbol L (version qr) (error_correction qr) fit (data_list qr)) ;;
  ret (mkQRCode (version qr) (error_correction qr) (box_size qr) (border qr)
                (data_list qr) m).

(** Modelled from the spec: [qr.make_image(fill_color, back_color)] of the
    external library, the picture of the modules of the object at its box size
    and border (a size below zero counts as zero here; the library's own
    checks are [lib_check]). *)
Definition make_image (qr : QRCode) (fill_color back_color : color) : Image :=
  render (Z.to_nat (box_size qr)) (Z.to_nat (border qr))
         fill_color back_color (modules qr).

(** *** [generate_qr_code(data, size=10, border=4)] *)
Definition generate_qr_code (data : pystr) (size border : Z) : M (option Image) :=
  try_except
    (qr <- QRCode_new 1 ERROR_CORRECT_L size border ;;
     let qr := add_data qr data in
     qr <- make qr true ;;
     let img := make_image qr Black White in
     ret (Some img))
    (fun e =>
       emit (error (lit "Error generating QR code: " ++ str e)) ;;
       ret None).

(** *** [get_image_download_link(img, filename="qrcode.png")] *)
Definition get_image_download_link (img : Image) (filename : pystr) : M pystr :=
  buffered <- lift (lib_png L img) ;;
  let img_str := b64encode buffered in
  let href :=
    lit "<a href=" ++ [QUOTE] ++ lit "data:image/png;base64," ++ img_str
    ++ [QUOTE] ++ lit " download=" ++ [QUOTE] ++ filename ++ [QUOTE]
    ++ lit ">Download QR Code</a>" in
  ret href.

(** *** The widgets *)

(** What the session holds for the three input widgets when the script runs. *)
Record Widgets := mkWidgets {
  text_area_value : pystr;
  selectbox_value : pystr;
  slider_value : Z
}.

Definition size_options : list pystr :=
  [lit "Small"; lit "Medium"; lit "Large"; lit "Extra Large"].

(** The [dict] literal of [main], in the order it is written. *)
Definition size_mapping : list (pystr * Z) :=
  [(lit "Small", 5); (lit "Medium", 10); (lit "Large", 15);
   (lit "Extra Large", 20)]%Z.

Fixpoint dict_get (d : list (pystr * Z)) (k : pystr) : option Z :=
  match d with
  | [] => None
  | (k', v) :: d' => if pystr_eqb k' k then Some v else dict_get d' k
  end.

(** [d[k]] *)
Definition subscript (d : list (pystr * Z)) (k : pystr) : M Z :=
  match dict_get d k with
  | Some v => ret v
  | None => raise (KeyError k)
  end.

(** [f"{n}"] for an [int]. *)
Definition format_int (n : Z) : pystr := lit (NilZero.string_of_int (Z.to_int n)).

Definition usage_tips : pystr :=
  [NL] ++ lit "    - **URLs**: Include `http://` or `https://` for web links"
  ++ [NL] ++ lit "    - **Contact Info**: Use vCard format for contact details"
  ++ [NL] ++ lit "    - **WiFi**: Use format `WIFI:T:WPA;S:network_name;P:password;;`"
  ++ [NL] ++ lit "    - **Email**: Use `mailto:email@example.com`"
  ++ [NL] ++ lit "    - **Phone**: Use `tel:+1234567890`"
  ++ [NL] ++ lit "    ".

Definition about_text : pystr :=
  [NL] ++ lit "    This QR code generator creates high-quality QR codes that can be scanned by any QR code reader."
  ++ [NL] ++ lit "    The generated codes support various data types including text, URLs, contact information, and more."
  ++ [NL] ++ lit "    ".

Definition example_text : pystr := lit "Hello, World! This is a sample QR code.".

(** The part of [main] under [if user_input.strip():]. *)
Definition show_generated (user_input size_option : pystr) (box_size border : Z)
  : M unit :=
  try_except
    (qr_img <- with_block (enter_spinner (lit "Generating QR code...")) exit_spinner
                 (generate_qr_code user_input box_size border) ;;
     match qr_img with
     | Some qr_img =>
         img_buffer <- lift (lib_png L qr_img) ;;
         emit (image img_buffer (lit "Your QR Code") use_column_width) ;;
         emit (markdown (lit "### Download") false) ;;
         download_link <-
           get_image_download_link qr_img
             (lit "qrcode_" ++ lower size_option ++ lit ".png") ;;
         emit (markdown download_link true) ;;
         emit (info ([9989%N] ++ lit " QR Code generated successfully! Size: "
                     ++ size_option ++ lit ", Border: " ++ format_int border)) ;;
         with_block (enter_expander (lit "Preview Input Data")) exit_expander
           (emit (code user_input))
     | None => ret tt
     end)
    (fun e =>
       emit (error ([10060%N] ++ lit " Error generating QR code: " ++ str e)) ;;
       emit (info (lit "Please check your input and try again."))).

(** The part of [main] under its [else:]. *)
Definition show_example : M unit :=
  emit (info ([128070%N] ++ lit " Enter some text above to generate your QR code")) ;;
  emit (markdown (lit "### Example") false) ;;
  example_qr <- generate_qr_code example_text 10 4 ;;
  match example_qr with
  | Some example_qr =>
      example_buffer <- lift (lib_png L example_qr) ;;
      emit (image example_buffer (lit "Example QR Code") (width_px 300)) ;;
      emit (caption (lit "This is what your QR code will look like"))
  | None => ret tt
  end.

Definition show_footer : M unit :=
  emit (markdown (lit "---") false) ;;
  emit (markdown (lit "### " ++ [128161%N] ++ lit " Usage Tips") false) ;;
  emit (markdown usage_tips false) ;;
  emit (markdown (lit "### " ++ [8505%N; 65039%N] ++ lit " About") false) ;;
  emit (markdown about_text false).

(** *** [main()] *)
Definition main (w : Widgets) : M unit :=
  emit (set_page_config (lit "QR Code Generator") [128241%N] (lit "centered")) ;;
  emit (title ([128241%N] ++ lit " QR Code Generator")) ;;
  emit (markdown (lit "Generate QR codes from any text, URL, or data!") false) ;;
  emit (header (lit "Input")) ;;
  emit (text_area (lit "Enter text, URL, or any data to generate QR code:") 100
          (lit "Enter your text here... (e.g., https://example.com, Hello World!, contact info, etc.)")) ;;
  let user_input := text_area_value w in
  emit (header (lit "Customization")) ;;
  emit (columns 2) ;;
  box_size <- with_block (enter_column 1) exit_column
    (emit (selectbox (lit "QR Code Size:") size_options 1) ;;
     let size_option := selectbox_value w in
     subscript size_mapping size_option) ;;
  let size_option := selectbox_value w in
  border <- with_block (enter_column 2) exit_column
    (emit (slider (lit "Border Size:") 1 10 4 (lit "Border size around the QR code")) ;;
     ret (slider_value w)) ;;
  emit (header (lit "Generated QR Code")) ;;
  (if truthy (strip user_input)
   then show_generated user_input size_option box_size border
   else show_example) ;;
  show_footer.

End Page.

(** ** Reading a trace *)

Definition is_encoder_call (ev : event) : bool :=
  match ev with
  | call_QRCode _ _ _ _ | call_make _ _ => true
  | _ => false
  end.

(** The calls into the QR library, in order. *)
Definition encoder_calls (t : trace) : trace := filter is_encoder_call t.

Definition is_attempt (ev : event) : bool :=
  match ev with call_QRCode _ _ _ _ => true | _ => false end.

(** How many QR objects were set up. *)
Definition attempts (t : trace) : nat := List.length (filter is_attempt t).

Fixpoint shown_errors (t : trace) : list pystr :=
  match t with
  | [] => []
  | error body :: t' => body :: shown_errors t'
  | _ :: t' => shown_errors t'
  end.

Fixpoint shown_infos (t : trace) : list pystr :=
  match t with
  | [] => []
  | info body :: t' => body :: shown_infos t'
  | _ :: t' => shown_infos t'
  end.

Fixpoint shown_images (t : trace) : list (pybytes * pystr * image_width) :=
  match t with
  | [] => []
  | image png cap w :: t' => (png, cap, w) :: shown_images t'
  | _ :: t' => shown_images t'
  end.

(** The bodies rendered as raw HTML: the download links. *)
Fixpoint shown_html (t : trace) : list pystr :=
  match t with
  | [] => []
  | markdown body true :: t' => body :: shown_html t'
  | _ :: t' => shown_html t'
  end.

Fixpoint shown_code (t : trace) : list pystr :=
  match t with
  | [] => []
  | code body :: t' => body :: shown_code t'
  | _ :: t' => shown_code t'
  end.

(** ** Reading a picture *)

(** [img] with [p] more pixels of [back] on each of its four sides. *)
Definition frame (p : nat) (back : color) (img : Image) : Image :=
  let blank := repeat back (width img + 2 * p) in
  repeat blank p
  ++ map (fun r => repeat back p ++ r ++ repeat back p) img
  ++ repeat blank p.

(** The [w] by [h] window of [img] whose top left pixel is at column [x],
    row [y]. *)
Definition crop (x y w h : nat) (img : Image) : Image :=
  map (fun r => firstn w (skipn x r)) (firstn h (skipn y img)).

(** A symbol is a square of modules, with at least one. *)
Definition square (m : matrix) : Prop :=
  m <> [] /\ Forall (fun r => List.length r = List.length m) m.

(** The QR library hands out square symbols only. *)
Definition symbols_square (L : Library) : Prop :=
  forall v ec fit ds m, lib_symbol L v ec fit ds = inr m -> square m.

(** The QR library raises [e] when asked for [data] at this size and border:
    at the set-up of the QR object or when the symbol is made. *)
Definition encoder_fails (L : Library) (data : pystr) (size border : Z) (e : exn)
  : Prop :=
  lib_check L size border = Some e
  \/ (lib_check L size border = None
      /\ lib_symbol L 1%Z ERROR_CORRECT_L true [data] = inl e).

(** The QR library makes the symbol [m] of [data] at this size and border. *)
Definition encoder_yields (L : Library) (data : pystr) (size border : Z)
  (m : matrix) : Prop :=
  lib_check L size border = None
  /\ lib_symbol L 1%Z ERROR_CORRECT_L true [data] = inr m.

(** ** Decoding base64, to say what [b64encode] returns *)

Fixpoint index_of (c : N) (l : list N) : option N :=
  match l with
  | [] => None
  | x :: l' => if (x =? c)%N then Some 0%N
               else option_map N.succ (index_of c l')
  end.

Definition b64_index (c : N) : option N := index_of c b64_alphabet.

Fixpoint b64decode (s : pystr) : option pybytes :=
  match s with
  | [] => Some []
  | c0 :: c1 :: c2 :: c3 :: rest =>
      match b64_index c0, b64_index c1 with
      | Some i0, Some i1 =>
          let a := N.lor (N.shiftl i0 2) (N.shiftr i1 4) in
          if (c2 =? PAD)%N then
            if (c3 =? PAD)%N then
              match rest with [] => Some [a] | _ => None end
            else None
          else
            match b64_index c2 with
            | Some i2 =>
                let b := N.lor (N.shiftl (N.land i1 15) 4) (N.shiftr i2 2) in
                if (c3 =? PAD)%N then
                  match rest with [] => Some [a; b] | _ => None end
                else
                  match b64_index c3, b64decode rest with
                  | Some i3, Some bs =>
                      Some (a :: b :: N.lor (N.shiftl (N.land i2 3) 6) i3 :: bs)
                  | _, _ => None
                  end
            | None => None
            end
      | _, _ => None
      end
  | _ => None
  end.

Definition octets (bs : pybytes) : Prop := Forall (fun b => (b < 256)%N) bs.

(** The anchor element [get_image_download_link] formats. *)
Definition anchor (data filename : pystr) : pystr :=
  lit "<a href=" ++ [QUOTE] ++ lit "data:image/png;base64," ++ data ++ [QUOTE]
  ++ lit " download=" ++ [QUOTE] ++ filename ++ [QUOTE]
  ++ lit ">Download QR Code</a>".

(** ** A stand-in for the libraries, to run the page on concrete inputs *)

Definition sample_symbol : matrix :=
  [[true; true; false]; [true; false; true]; [false; true; true]].

Definition data_overflow : exn := LibraryError (lit "data overflow").

Definition sample_library : Library :=
  {| lib_check := fun bs bd =>
       if (bs <=? 0)%Z then Some (LibraryError (lit "Invalid box size"))
       else if (bd <? 0)%Z then Some (LibraryError (lit "Invalid border value"))
       else None;
     lib_symbol := fun _ _ _ ds =>
       if (40 <? List.length (List.concat ds))%nat then inl data_overflow
       else inr sample_symbol;
     lib_png := fun img =>
       inr ([137; 80; 78; 71]%N
            ++ map (fun c => match c with Black => 0%N | White => 255%N end)
                   (List.concat img)) |}.

Definition too_long : pystr := repeat 65%N 41.

Definition sample_widgets (text label : pystr) : Widgets :=
  mkWidgets text label 4.

(** ** The fixed parts of the page *)

(** What [main] has put on the page when it reaches [if user_input.strip():]. *)
Definition page_top : trace :=
  [ set_page_config (lit "QR Code Generator") [128241%N] (lit "centered");
    title ([128241%N] ++ lit " QR Code Generator");
    markdown (lit "Generate QR codes from any text, URL, or data!") false;
    header (lit "Input");
    text_area (lit "Enter text, URL, or any data to generate QR code:") 100
      (lit "Enter your text here... (e.g., https://example.com, Hello World!, contact info, etc.)");
    header (lit "Customization");
    columns 2;
    enter_column 1;
    selectbox (lit "QR Code Size:") size_options 1;
    exit_column;
    enter_column 2;
    slider (lit "Border Size:") 1 10 4 (lit "Border size around the QR code");
    exit_column;
    header (lit "Generated QR Code") ].

(** What [main] adds below the branch. *)
Definition page_bottom : trace :=
  [ markdown (lit "---") false;
    markdown (lit "### " ++ [128161%N] ++ lit " Usage Tips") false;
    markdown usage_tips false;
    markdown (lit "### " ++ [8505%N; 65039%N] ++ lit " About") false;
    markdown about_text false ].

(** The hint of the handler in [main]. *)
Definition retry_hint : pystr := lit "Please check your input and try again.".

(** The banner of [generate_qr_code] for the exception [e]. *)
Definition banner (e : exn) : pystr := lit "Error generating QR code: " ++ str e.

(** The library calls of one attempt at [data]: the set-up of the QR object,
    and the making of the symbol when the set-up went through. *)
Definition one_attempt (data : pystr) (size border : Z) (calls : trace) : Prop :=
  calls = [call_QRCode 1 ERROR_CORRECT_L size border]
  \/ calls = [call_QRCode 1 ERROR_CORRECT_L size border; call_make [data] true].


(** The placeholder of the branch for a blank input. *)
Definition placeholder : pystr :=
  [128070%N] ++ lit " Enter some text above to generate your QR code".

(** The set-ups of a QR object in a trace, in order. *)
Definition qr_setups (t : trace) : trace := filter is_attempt t.

(** ** Checks behind the base64 facts *)

(** The four sextets of a group of three octets, as [b64encode] cuts them. *)
Definition sx0 (a : N) : N := N.shiftr a 2.
Definition sx1 (a b : N) : N := N.lor (N.shiftl (N.land a 3) 4) (N.shiftr b 4).
Definition sx2 (b c : N) : N := N.lor (N.shiftl (N.land b 15) 2) (N.shiftr c 6).
Definition sx3 (c : N) : N := N.land c 63.

(** The last sextet of a group of one octet, and of two. *)
Definition sx1_last (a : N) : N := N.shiftl (N.land a 3) 4.
Definition sx2_last (b : N) : N := N.shiftl (N.land b 15) 2.

(** The alphabet gives sextet [i] a character that is not the padding and
    that [b64_index] maps back to [i]. *)
Definition sextet_ok (i : N) : bool :=
  match b64_index (b64_char i) with
  | Some j => (j =? i)%N && negb (b64_char i =? PAD)%N
  | None => false
  end.

(** The first two sextets of a group give its first octet back, and with the
    third sextet its second octet. *)
Definition first_ok (a b : N) : bool :=
  ((sx0 a <? 64) && (sx1 a b <? 64)
   && (N.lor (N.shiftl (sx0 a) 2) (N.shiftr (sx1 a b) 4) =? a)
   && (N.lor (N.shiftl (N.land (sx1 a b) 15) 4) (N.shiftr (sx2_last b) 2) =? b))%N.

(** The last two sextets of a group give its third octet back. *)
Definition second_ok (b c : N) : bool :=
  ((sx2 b c <? 64) && (sx3 c <? 64)
   && (N.shiftr (sx2 b c) 2 =? N.shiftr (sx2_last b) 2)
   && (N.lor (N.shiftl (N.land (sx2 b c) 3) 6) (sx3 c) =? c))%N.

(** The same for the padded groups. *)
Definition last_ok (a : N) : bool :=
  ((sx1_last a <? 64) && (sx2_last a <? 64)
   && (N.lor (N.shiftl (sx0 a) 2) (N.shiftr (sx1_last a) 4) =? a))%N.

(** [P] holds of every pair of octets. *)
Definition octet_pairs_ok (P : N -> N -> bool) : bool :=
  forallb (fun a => forallb (P a) (map N.of_nat (seq 0 256)))
          (map N.of_nat (seq 0 256)).

(** The window of the symbol in a picture: [n] modules wide and high, behind
    a border of [bd] modules. *)
Definition symbol_region (px bd n : nat) (img : Image) : Image :=
  crop (bd * px) (bd * px) (n * px) (n * px) img.

(** ** The section under "Generated QR Code", case by case *)

(** The section when the QR library raises [e] after the calls [calls]. *)
Definition failed_section (calls : trace) (e : exn) : trace :=
  [enter_spinner (lit "Generating QR code...")] ++ calls
  ++ [error (banner e); exit_spinner].

(** The section when the picture is made and serialised to [png]. *)
Definition displayed_section (user_input size_option : pystr)
  (box_size border : Z) (png : pybytes) : trace :=
  [ enter_spinner (lit "Generating QR code...");
    call_QRCode 1 ERROR_CORRECT_L box_size border;
    call_make [user_input] true;
    exit_spinner;
    image png (lit "Your QR Code") use_column_width;
    markdown (lit "### Download") false;
    markdown (anchor (b64encode png)
                (lit "qrcode_" ++ lower size_option ++ lit ".png")) true;
    info ([9989%N] ++ lit " QR Code generated successfully! Size: "
          ++ size_option ++ lit ", Border: " ++ format_int border);
    enter_expander (lit "Preview Input Data");
    code user_input;
    exit_expander ].

(** The section when the picture is made and PIL raises [e] on it. *)
Definition unsaved_section (user_input : pystr) (box_size border : Z) (e : exn)
  : trace :=
  [ enter_spinner (lit "Generating QR code...");
    call_QRCode 1 ERROR_CORRECT_L box_size border;
    call_make [user_input] true;
    exit_spinner;
    error ([10060%N] ++ lit " Error generating QR code: " ++ str e);
    info retry_hint ].

(** ** More stand-ins for the libraries *)

Definition png_error : exn := LibraryError (lit "cannot write picture").

(** Symbols for at most [capacity] code points; a PNG serialisation that
    works as in [sample_library] or raises. *)
Definition stand_in (capacity : nat) (png_works : bool) : Library :=
  {| lib_check := lib_check sample_library;
     lib_symbol := fun _ _ _ ds =>
       if (capacity <? List.length (List.concat ds))%nat then inl data_overflow
       else inr sample_symbol;
     lib_png := fun img =>
       if png_works then lib_png sample_library img else inl png_error |}.

(** A payload past what any symbol holds at level L: 2953 octets is the
    capacity of version 40 for text that is not all digits or capitals. *)
Definition byte_capacity : nat := 2953.
Definition over_capacity : pystr := repeat 97%N 2954.

(** * Properties *)

Unset Implicit Arguments.

Arguments lit : simpl never.
Arguments render : simpl never.
Arguments b64encode : simpl never.
Arguments lower : simpl never.
Arguments format_int : simpl never.
Arguments str : simpl never.
Arguments strip : simpl never.

(** ** Stripping *)

Lemma lstrip_nil (s : pystr) : lstrip s = [] <-> forallb isspace s = true.
Proof.
  induction s as [|c s IH]; simpl.
  - tauto.
  - destruct (isspace c); simpl.
    + exact IH.
    + split; discriminate.
Qed.

Lemma lstrip_head (s r : pystr) (c : N) :
  lstrip s = c :: r -> isspace c = false.
Proof.
  induction s as [|a s IH]; simpl; [discriminate|].
  destruct (isspace a) eqn:Ha; [exact IH|].
  intros E; inversion E; subst; exact Ha.
Qed.

Lemma forallb_rev {A} (f : A -> bool) (l : list A) :
  forallb f (rev l) = forallb f l.
Proof.
  induction l as [|a l IH]; simpl; [reflexivity|].
  rewrite forallb_app, IH; simpl. rewrite andb_true_r. apply andb_comm.
Qed.

(** [user_input.strip()] is false exactly on the empty and the all-whitespace
    strings. *)
Lemma strip_blank (s : pystr) :
  truthy (strip s) = false <-> forallb isspace s = true.
Proof.
  unfold strip, rstrip. split.
  - intros H.
    assert (E : lstrip (rev (lstrip s)) = []).
    { destruct (lstrip (rev (lstrip s))) as [|c r] eqn:E; [reflexivity|].
      simpl in H. destruct (rev r ++ [c]) eqn:E' in H; [|discriminate].
      destruct (rev r); discriminate. }
    apply lstrip_nil in E. rewrite forallb_rev in E.
    destruct (lstrip s) as [|c r] eqn:Es.
    + now apply lstrip_nil.
    + apply lstrip_head in Es. simpl in E. rewrite Es in E. discriminate.
  - intros H. apply lstrip_nil in H. rewrite H. reflexivity.
Qed.

(** ** Running the monad in a proof *)

Ltac run_steps := cbv beta iota zeta.
Ltac same_trace := cbv beta iota zeta; rewrite <- ?app_assoc; reflexivity.

(** ** Runs of [generate_qr_code] *)

Section Runs.

Variable L : Library.

Lemma generate_qr_code_yields data size border m t :
  encoder_yields L data size border m ->
  generate_qr_code L data size border t =
    (Returned (Some (render (Z.to_nat size) (Z.to_nat border) Black White m)),
     t ++ [call_QRCode 1 ERROR_CORRECT_L size border; call_make [data] true]).
Proof.
  intros [Hc Hs].
  unfold generate_qr_code, try_except, QRCode_new, make, bind, emit, lift, ret.
  rewrite Hc. simpl. rewrite Hs. simpl. rewrite <- app_assoc. reflexivity.
Qed.

Lemma generate_qr_code_fails data size border e t :
  encoder_fails L data size border e ->
  exists calls,
    one_attempt data size border calls
    /\ generate_qr_code L data size border t
       = (Returned None, t ++ calls ++ [error (banner e)]).
Proof.
  intros [Hc | [Hc Hs]];
    unfold generate_qr_code, try_except, QRCode_new, make, bind, emit, lift,
      ret, raise; rewrite Hc; simpl.
  - exists [call_QRCode 1 ERROR_CORRECT_L size border]. split; [now left|].
    rewrite <- app_assoc. reflexivity.
  - rewrite Hs. simpl.
    exists [call_QRCode 1 ERROR_CORRECT_L size border; call_make [data] true].
    split; [now right|]. rewrite <- !app_assoc. reflexivity.
Qed.

End Runs.

(** ** Runs of the page *)

Section PageRuns.

Variable L : Library.

Lemma show_footer_run t : show_footer t = (Returned tt, t ++ page_bottom).
Proof.
  unfold show_footer, bind, emit, page_bottom. simpl.
  rewrite <- !app_assoc. reflexivity.
Qed.

Lemma get_image_download_link_run img filename png t :
  lib_png L img = inr png ->
  get_image_download_link L img filename t
  = (Returned (anchor (b64encode png) filename), t).
Proof.
  intros H. unfold get_image_download_link, bind, lift. rewrite H. reflexivity.
Qed.

Lemma get_image_download_link_raises img filename e t :
  lib_png L img = inl e ->
  get_image_download_link L img filename t = (Raised e, t).
Proof.
  intros H. unfold get_image_download_link, bind, lift. rewrite H. reflexivity.
Qed.

(** The branch for a non-blank input, when the encoder fails. *)
Lemma show_generated_fails user_input size_option box_size border e t :
  encoder_fails L user_input box_size border e ->
  exists calls,
    one_attempt user_input box_size border calls
    /\ show_generated L user_input size_option box_size border t
       = (Returned tt,
          t ++ [enter_spinner (lit "Generating QR code...")] ++ calls
            ++ [error (banner e); exit_spinner]).
Proof.
  intros H.
  destruct (generate_qr_code_fails L _ _ _ _
              (t ++ [enter_spinner (lit "Generating QR code...")]) H)
    as (calls & Hcalls & Hrun).
  exists calls. split; [exact Hcalls|].
  unfold show_generated, try_except, bind, with_block.
  rewrite Hrun. unfold ret. same_trace.
Qed.

(** The same branch when the encoder and the PNG serialisation succeed. *)
Lemma show_generated_displays user_input size_option box_size border m png t :
  encoder_yields L user_input box_size border m ->
  lib_png L (render (Z.to_nat box_size) (Z.to_nat border) Black White m)
  = inr png ->
  show_generated L user_input size_option box_size border t
  = (Returned tt,
     t ++ [ enter_spinner (lit "Generating QR code...");
            call_QRCode 1 ERROR_CORRECT_L box_size border;
            call_make [user_input] true;
            exit_spinner;
            image png (lit "Your QR Code") use_column_width;
            markdown (lit "### Download") false;
            markdown (anchor (b64encode png)
                        (lit "qrcode_" ++ lower size_option ++ lit ".png")) true;
            info ([9989%N] ++ lit " QR Code generated successfully! Size: "
                  ++ size_option ++ lit ", Border: " ++ format_int border);
            enter_expander (lit "Preview Input Data");
            code user_input;
            exit_expander ]).
Proof.
  intros Hy Hpng.
  unfold show_generated, try_except, bind, with_block.
  rewrite (generate_qr_code_yields L _ _ _ _ _ Hy). run_steps.
  unfold lift at 1. rewrite Hpng. unfold ret at 1, emit. run_steps.
  erewrite get_image_download_link_run by exact Hpng.
  same_trace.
Qed.

(** The same branch when the encoder succeeds and PIL raises: the handler of
    [main] runs. *)
Lemma show_generated_png_raises user_input size_option box_size border m e t :
  encoder_yields L user_input box_size border m ->
  lib_png L (render (Z.to_nat box_size) (Z.to_nat border) Black White m)
  = inl e ->
  show_generated L user_input size_option box_size border t
  = (Returned tt,
     t ++ [ enter_spinner (lit "Generating QR code...");
            call_QRCode 1 ERROR_CORRECT_L box_size border;
            call_make [user_input] true;
            exit_spinner;
            error ([10060%N] ++ lit " Error generating QR code: " ++ str e);
            info retry_hint ]).
Proof.
  intros Hy Hpng.
  unfold show_generated, try_except, bind, with_block.
  rewrite (generate_qr_code_yields L _ _ _ _ _ Hy). run_steps.
  unfold lift at 1. rewrite Hpng. unfold raise, emit, retry_hint.
  same_trace.
Qed.

(** The branch for a blank input. *)
Lemma show_example_displays m png t :
  encoder_yields L example_text 10 4 m ->
  lib_png L (render 10 4 Black White m) = inr png ->
  show_example L t
  = (Returned tt,
     t ++ [ info ([128070%N] ++ lit " Enter some text above to generate your QR code");
            markdown (lit "### Example") false;
            call_QRCode 1 ERROR_CORRECT_L 10 4;
            call_make [example_text] true;
            image png (lit "Example QR Code") (width_px 300);
            caption (lit "This is what your QR code will look like") ]).
Proof.
  intros Hy Hpng.
  unfold show_example, bind, emit.
  rewrite (generate_qr_code_yields L _ _ _ _ _ Hy).
  change (Z.to_nat 10) with 10%nat. change (Z.to_nat 4) with 4%nat.
  run_steps. unfold lift. rewrite Hpng. unfold ret.
  same_trace.
Qed.

Lemma show_example_fails e t :
  encoder_fails L example_text 10 4 e ->
  exists calls,
    one_attempt example_text 10 4 calls
    /\ show_example L t
       = (Returned tt,
          t ++ [ info ([128070%N] ++ lit " Enter some text above to generate your QR code");
                 markdown (lit "### Example") false ]
            ++ calls ++ [error (banner e)]).
Proof.
  intros H.
  destruct (generate_qr_code_fails L _ _ _ _
              ((t ++ [info ([128070%N] ++ lit " Enter some text above to generate your QR code")])
                 ++ [markdown (lit "### Example") false]) H)
    as (calls & Hcalls & Hrun).
  exists calls. split; [exact Hcalls|].
  unfold show_example, bind, emit. run_steps. rewrite Hrun. unfold ret.
  same_trace.
Qed.

(** [main] from a fresh page, once the label is found in the table: the fixed
    top, one of the two branches, the fixed bottom. *)
Lemma main_run w bs :
  dict_get size_mapping (selectbox_value w) = Some bs ->
  main L w [] =
    match
      (if truthy (strip (text_area_value w))
       then show_generated L (text_area_value w) (selectbox_value w) bs
              (slider_value w)
       else show_example L) page_top
    with
    | (Returned _, t) => (Returned tt, t ++ page_bottom)
    | (Raised e, t) => (Raised e, t)
    end.
Proof.
  intros H. unfold main, bind, emit, with_block, subscript, ret.
  run_steps. rewrite H. run_steps.
  match goal with
  | |- context [?x ++ [header (lit "Generated QR Code")]] =>
      change (x ++ [header (lit "Generated QR Code")]) with page_top
  end.
  match goal with
  | |- context [?branch page_top] => destruct (branch page_top) as [[u|e] t]
  end.
  - apply show_footer_run.
  - reflexivity.
Qed.

(** A label that is not in the table: [main] stops with a [KeyError]. *)
Lemma main_key_error w :
  dict_get size_mapping (selectbox_value w) = None ->
  fst (main L w []) = Raised (KeyError (selectbox_value w)).
Proof.
  intros H. unfold main, bind, emit, with_block, subscript, raise.
  run_steps. rewrite H. reflexivity.
Qed.

End PageRuns.

(** ** Reading a trace that is an append *)

Lemma encoder_calls_app t u :
  encoder_calls (t ++ u) = encoder_calls t ++ encoder_calls u.
Proof. apply filter_app. Qed.

Lemma attempts_app t u : attempts (t ++ u) = (attempts t + attempts u)%nat.
Proof. unfold attempts. rewrite filter_app. apply length_app. Qed.

Lemma shown_errors_app t u :
  shown_errors (t ++ u) = shown_errors t ++ shown_errors u.
Proof.
  induction t as [|ev t IH]; [reflexivity|].
  destruct ev; simpl; rewrite IH; reflexivity.
Qed.

Lemma shown_infos_app t u :
  shown_infos (t ++ u) = shown_infos t ++ shown_infos u.
Proof.
  induction t as [|ev t IH]; [reflexivity|].
  destruct ev; simpl; rewrite IH; reflexivity.
Qed.

Lemma shown_images_app t u :
  shown_images (t ++ u) = shown_images t ++ shown_images u.
Proof.
  induction t as [|ev t IH]; [reflexivity|].
  destruct ev; simpl; rewrite IH; reflexivity.
Qed.

Lemma shown_html_app t u :
  shown_html (t ++ u) = shown_html t ++ shown_html u.
Proof.
  induction t as [|ev t IH]; [reflexivity|].
  destruct ev as [| | ? [|] | | | | | | | | | | | | | | | | | |];
    simpl; rewrite IH; reflexivity.
Qed.

Lemma shown_code_app t u :
  shown_code (t ++ u) = shown_code t ++ shown_code u.
Proof.
  induction t as [|ev t IH]; [reflexivity|].
  destruct ev; simpl; rewrite IH; reflexivity.
Qed.

Lemma shown_infos_in t body : In (info body) t -> In body (shown_infos t).
Proof.
  induction t as [|ev t IH]; simpl; [tauto|].
  intros [E | H].
  - subst ev. now left.
  - destruct ev; simpl; auto.
Qed.

Ltac read_trace :=
  rewrite ?encoder_calls_app, ?attempts_app, ?shown_errors_app,
    ?shown_infos_app, ?shown_images_app, ?shown_html_app, ?shown_code_app.

(** One attempt sets up the QR object once and shows nothing. *)
Lemma one_attempt_read data size border calls :
  one_attempt data size border calls ->
  attempts calls = 1%nat /\ shown_errors calls = [] /\ shown_infos calls = []
  /\ shown_images calls = [] /\ shown_html calls = [] /\ shown_code calls = []
  /\ encoder_calls calls = calls.
Proof. intros [E | E]; subst calls; repeat split. Qed.

(** [main] when the encoder fails on a non-blank input. *)
Lemma main_encoder_fails L w bs e :
  truthy (strip (text_area_value w)) = true ->
  dict_get size_mapping (selectbox_value w) = Some bs ->
  encoder_fails L (text_area_value w) bs (slider_value w) e ->
  exists calls,
    one_attempt (text_area_value w) bs (slider_value w) calls
    /\ main L w []
       = (Returned tt,
          (page_top ++ [enter_spinner (lit "Generating QR code...")] ++ calls
             ++ [error (banner e); exit_spinner]) ++ page_bottom).
Proof.
  intros Hin Hbs Hf.
  destruct (show_generated_fails L _ (selectbox_value w) _ _ _ page_top Hf)
    as (calls & Hcalls & Hrun).
  exists calls. split; [exact Hcalls|].
  rewrite (main_run L w bs Hbs), Hin, Hrun. reflexivity.
Qed.

(** ** Encoding failures *)

(** C1, as the code has it: when the QR library raises [e] for the input,
    [generate_qr_code] shows the banner with the library's message itself and
    returns [None]: no exception and no error value reaches the caller.  The
    render cycle of [main] ends normally with the whole page, and that banner
    is the one error on it.  Nothing is tried a second time: the calls into
    the QR library, in [generate_qr_code] and on the whole page, are those of
    one attempt, one set-up of the QR object and, when the set-up went
    through, one making of the symbol. *)
Theorem encoder_failure_shown_once L w bs e :
  truthy (strip (text_area_value w)) = true ->
  dict_get size_mapping (selectbox_value w) = Some bs ->
  encoder_fails L (text_area_value w) bs (slider_value w) e ->
  (forall t,
      fst (generate_qr_code L (text_area_value w) bs (slider_value w) t)
      = Returned None
      /\ shown_errors
           (snd (generate_qr_code L (text_area_value w) bs (slider_value w) t))
         = shown_errors t ++ [lit "Error generating QR code: " ++ str e]
      /\ exists calls,
          one_attempt (text_area_value w) bs (slider_value w) calls
          /\ encoder_calls
               (snd (generate_qr_code L (text_area_value w) bs
                       (slider_value w) t))
             = encoder_calls t ++ calls)
  /\ fst (main L w []) = Returned tt
  /\ shown_errors (snd (main L w [])) = [lit "Error generating QR code: " ++ str e]
  /\ one_attempt (text_area_value w) bs (slider_value w)
       (encoder_calls (snd (main L w [])))
  /\ attempts (snd (main L w [])) = 1%nat
  /\ exists t, snd (main L w []) = t ++ page_bottom.
Proof.
  intros Hin Hbs Hf. split.
  - intros t. destruct (generate_qr_code_fails L _ _ _ _ t Hf)
      as (calls & Hc & Hrun).
    rewrite Hrun. split; [reflexivity|].
    destruct (one_attempt_read _ _ _ _ Hc) as (_ & He & _ & _ & _ & _ & Hec).
    cbn [snd]. split.
    + read_trace. rewrite He. reflexivity.
    + exists calls. split; [exact Hc|].
      read_trace. rewrite Hec. cbn [encoder_calls filter is_encoder_call].
      now rewrite app_nil_r.
  - destruct (main_encoder_fails L w bs e Hin Hbs Hf) as (calls & Hc & Hrun).
    rewrite Hrun. cbn [fst snd].
    destruct (one_attempt_read _ _ _ _ Hc) as (Ha & He & _ & _ & _ & _ & Hec).
    split; [reflexivity|]. split; [|split; [|split]].
    + read_trace. rewrite He. reflexivity.
    + read_trace. rewrite Hec.
      change (encoder_calls page_top) with (@nil event).
      change (encoder_calls page_bottom) with (@nil event).
      cbn [encoder_calls filter is_encoder_call app].
      rewrite !app_nil_r. exact Hc.
    + read_trace. rewrite Ha. reflexivity.
    + eexists. reflexivity.
Qed.

Lemma encoder_failure_shown_once_witness :
  truthy (strip too_long) = true
  /\ dict_get size_mapping (lit "Medium") = Some 10%Z
  /\ encoder_fails sample_library too_long 10 4 data_overflow
  /\ fst (main sample_library (sample_widgets too_long (lit "Medium")) [])
     = Returned tt
  /\ shown_errors
       (snd (main sample_library (sample_widgets too_long (lit "Medium")) []))
     = [lit "Error generating QR code: data overflow"]
  /\ one_attempt too_long 10 4
       (encoder_calls
          (snd (main sample_library (sample_widgets too_long (lit "Medium")) []))).
Proof.
  assert (H1 : truthy (strip too_long) = true) by (vm_compute; reflexivity).
  assert (H2 : dict_get size_mapping (lit "Medium") = Some 10%Z)
    by (vm_compute; reflexivity).
  assert (H3 : encoder_fails sample_library too_long 10 4 data_overflow)
    by (right; split; vm_compute; reflexivity).
  destruct (encoder_failure_shown_once sample_library
              (sample_widgets too_long (lit "Medium")) 10%Z data_overflow
              H1 H2 H3) as (_ & Hr & He & Hone & _).
  repeat split; assumption.
Defined.

(** C1 as the spec words it fails: on a payload of 2954 small letters, one
    more than any symbol holds, the library raises and the caller of
    [generate_qr_code] gets [None], not the error. *)
Lemma generate_qr_code_hides_error_from_caller :
  encoder_fails (stand_in byte_capacity true) over_capacity 10 4 data_overflow
  /\ fst (generate_qr_code (stand_in byte_capacity true) over_capacity 10 4 [])
     = Returned None
  /\ fst (generate_qr_code (stand_in byte_capacity true) over_capacity 10 4 [])
     <> Raised data_overflow.
Proof.
  split; [right; split; vm_compute; reflexivity|].
  split; [vm_compute; reflexivity|].
  vm_compute. discriminate.
Qed.

(** C3: [generate_qr_code] catches whatever the QR library raises, shows the
    banner and returns [None].  In [main] the page is then the fixed top, the
    spinner around the library calls and the banner, and the fixed bottom: the
    handler of [main] with its hint does not run, and no picture, download link
    or input preview is shown. *)
Theorem encoder_failure_skips_display L w bs e :
  truthy (strip (text_area_value w)) = true ->
  dict_get size_mapping (selectbox_value w) = Some bs ->
  encoder_fails L (text_area_value w) bs (slider_value w) e ->
  (forall t, exists calls,
      one_attempt (text_area_value w) bs (slider_value w) calls
      /\ generate_qr_code L (text_area_value w) bs (slider_value w) t
         = (Returned None,
            t ++ calls ++ [error (lit "Error generating QR code: " ++ str e)]))
  /\ (exists calls,
         one_attempt (text_area_value w) bs (slider_value w) calls
         /\ snd (main L w [])
            = page_top
              ++ [enter_spinner (lit "Generating QR code...")] ++ calls
              ++ [error (lit "Error generating QR code: " ++ str e); exit_spinner]
              ++ page_bottom)
  /\ ~ In (info (lit "Please check your input and try again."))
         (snd (main L w []))
  /\ ~ In (error ([10060%N] ++ lit " Error generating QR code: " ++ str e))
         (snd (main L w []))
  /\ shown_images (snd (main L w [])) = []
  /\ shown_html (snd (main L w [])) = []
  /\ shown_code (snd (main L w [])) = [].
Proof.
  intros Hin Hbs Hf. split; [intros t; exact (generate_qr_code_fails L _ _ _ _ t Hf)|].
  destruct (main_encoder_fails L w bs e Hin Hbs Hf) as (calls & Hc & Hrun).
  rewrite Hrun. cbn [snd].
  destruct (one_attempt_read _ _ _ _ Hc) as (_ & He & Hi & Him & Hh & Hcd & _).
  split; [exists calls; split; [exact Hc|]; rewrite <- !app_assoc; reflexivity|].
  split; [|split; [|split; [|split]]].
  - intros H. apply shown_infos_in in H. revert H.
    read_trace. rewrite Hi. simpl. tauto.
  - intros H. rewrite !in_app_iff in H.
    destruct H as [[H | [H | [H | H]]] | H].
    + revert H. clear. unfold page_top. simpl. intuition discriminate.
    + destruct H as [H | []]; discriminate.
    + destruct Hc as [E | E]; subst calls; simpl in H; intuition discriminate.
    + destruct H as [H | [H | []]]; [|discriminate].
      unfold banner in H. vm_compute in H. discriminate H.
    + revert H. clear. unfold page_bottom. simpl. intuition discriminate.
  - read_trace. rewrite Him. reflexivity.
  - read_trace. rewrite Hh. reflexivity.
  - read_trace. rewrite Hcd. reflexivity.
Qed.

Lemma encoder_failure_skips_display_witness :
  truthy (strip too_long) = true
  /\ dict_get size_mapping (lit "Large") = Some 15%Z
  /\ encoder_fails sample_library too_long 15 4 data_overflow
  /\ ~ In (info (lit "Please check your input and try again."))
         (snd (main sample_library (sample_widgets too_long (lit "Large")) []))
  /\ shown_images
       (snd (main sample_library (sample_widgets too_long (lit "Large")) []))
     = [].
Proof.
  assert (H1 : truthy (strip too_long) = true) by (vm_compute; reflexivity).
  assert (H2 : dict_get size_mapping (lit "Large") = Some 15%Z)
    by (vm_compute; reflexivity).
  assert (H3 : encoder_fails sample_library too_long 15 4 data_overflow)
    by (right; split; vm_compute; reflexivity).
  destruct (encoder_failure_skips_display sample_library
              (sample_widgets too_long (lit "Large")) 15%Z data_overflow
              H1 H2 H3) as (_ & _ & Hh & _ & Him & _).
  repeat split; assumption.
Defined.

(** ** A blank input *)

Section Blank.

Variable L : Library.

(** The example's picture cannot be serialised: the exception leaves
    [show_example], which has no handler. *)
Lemma show_example_png_raises m e t :
  encoder_yields L example_text 10 4 m ->
  lib_png L (render 10 4 Black White m) = inl e ->
  show_example L t
  = (Raised e,
     t ++ [ info placeholder; markdown (lit "### Example") false ]
       ++ [ call_QRCode 1 ERROR_CORRECT_L 10 4; call_make [example_text] true ]).
Proof.
  intros Hy Hpng.
  unfold show_example, bind, emit.
  rewrite (generate_qr_code_yields L _ _ _ _ _ Hy).
  change (Z.to_nat 10) with 10%nat. change (Z.to_nat 4) with 4%nat.
  run_steps. unfold lift. rewrite Hpng. unfold raise, placeholder.
  same_trace.
Qed.

(** Whatever the libraries do, the branch for a blank input starts with the
    placeholder and makes one attempt, on the example. *)
Lemma show_example_any t :
  exists r rest,
    show_example L t
    = (r, t ++ [info placeholder; markdown (lit "### Example") false] ++ rest)
    /\ one_attempt example_text 10 4 (encoder_calls rest)
    /\ attempts rest = 1%nat.
Proof.
  destruct (lib_check L 10 4) as [e|] eqn:Hc.
  - destruct (show_example_fails L e t (or_introl Hc)) as (calls & Hcalls & Hrun).
    destruct (one_attempt_read _ _ _ _ Hcalls) as (Ha & _ & _ & _ & _ & _ & He).
    exists (Returned tt), (calls ++ [error (banner e)]).
    split; [exact Hrun|]. read_trace. rewrite He, Ha, app_nil_r. now split.
  - destruct (lib_symbol L 1 ERROR_CORRECT_L true [example_text]) as [e|m] eqn:Hs.
    + destruct (show_example_fails L e t (or_intror (conj Hc Hs)))
        as (calls & Hcalls & Hrun).
      destruct (one_attempt_read _ _ _ _ Hcalls) as (Ha & _ & _ & _ & _ & _ & He).
      exists (Returned tt), (calls ++ [error (banner e)]).
      split; [exact Hrun|]. read_trace. rewrite He, Ha, app_nil_r. now split.
    + destruct (lib_png L (render 10 4 Black White m)) as [e|png] eqn:Hp.
      * eexists _, _. split.
        { exact (show_example_png_raises m e t (conj Hc Hs) Hp). }
        split; [right; reflexivity | reflexivity].
      * eexists _, _. split.
        { rewrite (show_example_displays L m png t (conj Hc Hs) Hp).
          unfold placeholder.
          change (t ++ [?a; ?b; ?c; ?d; ?e; ?f])
            with (t ++ [a; b] ++ [c; d; e; f]).
          reflexivity. }
        split; [right; reflexivity | reflexivity].
Qed.

(** The trace of [main] on a blank input. *)
Lemma main_blank_any w bs :
  truthy (strip (text_area_value w)) = false ->
  dict_get size_mapping (selectbox_value w) = Some bs ->
  exists rest tail,
    snd (main L w [])
    = page_top ++ [info placeholder; markdown (lit "### Example") false]
      ++ rest ++ tail
    /\ one_attempt example_text 10 4 (encoder_calls rest)
    /\ attempts rest = 1%nat
    /\ (tail = page_bottom \/ tail = []).
Proof.
  intros Hin Hbs.
  destruct (show_example_any page_top) as (r & rest & Hrun & Hone & Hatt).
  rewrite (main_run L w bs Hbs), Hin, Hrun.
  destruct r as [u|e]; cbn [snd].
  - exists rest, page_bottom. rewrite <- !app_assoc. auto.
  - exists rest, []. rewrite app_nil_r. auto.
Qed.

End Blank.

Lemma blank_is_not_example s :
  forallb isspace s = true -> s <> example_text.
Proof. intros H E. subst s. vm_compute in H. discriminate H. Qed.

Lemma one_attempt_make data size border calls ds fit :
  one_attempt data size border calls ->
  In (call_make ds fit) calls -> ds = [data].
Proof.
  intros [E | E] H; subst calls; simpl in H.
  - destruct H as [H | []]. discriminate H.
  - destruct H as [H | [H | []]]; [discriminate H|].
    now inversion H.
Qed.

(** C2, as the code has it: on an empty or all-whitespace payload [main] never
    hands the payload to the encoder.  It makes one attempt, on the example
    sentence at module size 10 and border 4, shows the placeholder, and, when
    that attempt and the PNG serialisation succeed, the picture of the example
    and no other. *)
Theorem blank_input_encodes_example_only L w bs :
  forallb isspace (text_area_value w) = true ->
  dict_get size_mapping (selectbox_value w) = Some bs ->
  one_attempt example_text 10 4 (encoder_calls (snd (main L w [])))
  /\ attempts (snd (main L w [])) = 1%nat
  /\ (forall ds fit,
         In (call_make ds fit) (snd (main L w [])) ->
         ds = [example_text] /\ ~ In (text_area_value w) ds)
  /\ In (info placeholder) (snd (main L w []))
  /\ (forall m png,
         encoder_yields L example_text 10 4 m ->
         lib_png L (render 10 4 Black White m) = inr png ->
         shown_images (snd (main L w []))
         = [(png, lit "Example QR Code", width_px 300)]).
Proof.
  intros Hblank Hbs.
  assert (Hin : truthy (strip (text_area_value w)) = false)
    by now apply strip_blank.
  destruct (main_blank_any L w bs Hin Hbs)
    as (rest & tail & Ht & Hone & Hatt & Htail).
  assert (Hcalls : encoder_calls (snd (main L w [])) = encoder_calls rest).
  { rewrite Ht. read_trace.
    destruct Htail; subst tail; cbn [encoder_calls filter app];
      rewrite ?app_nil_r; reflexivity. }
  split; [rewrite Hcalls; exact Hone|].
  split.
  { rewrite Ht. read_trace. rewrite Hatt.
    destruct Htail; subst tail; reflexivity. }
  split.
  { intros ds fit H.
    assert (Hds : ds = [example_text]).
    { apply (one_attempt_make _ _ _ _ ds fit Hone).
      rewrite <- Hcalls. apply filter_In. split; [exact H | reflexivity]. }
    split; [exact Hds|]. subst ds. intros [E | []].
    exact (blank_is_not_example _ Hblank (eq_sym E)). }
  split.
  { rewrite Ht. apply in_or_app. right. now left. }
  intros m png Hy Hpng.
  rewrite (main_run L w bs Hbs), Hin,
    (show_example_displays L m png page_top Hy Hpng).
  cbn [snd]. read_trace. reflexivity.
Qed.

Lemma blank_input_encodes_example_only_witness :
  forallb isspace (lit "  ") = true
  /\ dict_get size_mapping (lit "Small") = Some 5%Z
  /\ attempts (snd (main sample_library (sample_widgets (lit "  ") (lit "Small")) []))
     = 1%nat
  /\ In (info placeholder)
        (snd (main sample_library (sample_widgets (lit "  ") (lit "Small")) [])).
Proof.
  assert (H1 : forallb isspace (lit "  ") = true) by (vm_compute; reflexivity).
  assert (H2 : dict_get size_mapping (lit "Small") = Some 5%Z)
    by (vm_compute; reflexivity).
  destruct (blank_input_encodes_example_only sample_library
              (sample_widgets (lit "  ") (lit "Small")) 5%Z H1 H2)
    as (_ & Ha & _ & Hp & _).
  repeat split; assumption.
Defined.

(** C2 as the spec words it fails: on the empty payload the encoder is
    invoked, for the example. *)
Lemma empty_input_invokes_encoder :
  truthy (strip []) = false
  /\ encoder_calls
       (snd (main sample_library (sample_widgets [] (lit "Medium")) []))
     = [call_QRCode 1 ERROR_CORRECT_L 10 4; call_make [example_text] true]
  /\ encoder_calls
       (snd (main sample_library (sample_widgets [] (lit "Medium")) []))
     <> [].
Proof.
  split; [reflexivity|].
  split; [vm_compute; reflexivity|].
  vm_compute. discriminate.
Qed.

(** C5: on the payload [""] the page shows, between its fixed top and bottom,
    the placeholder and the example: the sentence
    "Hello, World! This is a sample QR code." encoded at module size 10 and
    border 4, its picture shown with [width=300]. *)
Theorem empty_input_renders_example L w bs m png :
  text_area_value w = [] ->
  dict_get size_mapping (selectbox_value w) = Some bs ->
  encoder_yields L (lit "Hello, World! This is a sample QR code.") 10 4 m ->
  lib_png L (render 10 4 Black White m) = inr png ->
  main L w []
  = (Returned tt,
     page_top
     ++ [ info placeholder;
          markdown (lit "### Example") false;
          call_QRCode 1 ERROR_CORRECT_L 10 4;
          call_make [lit "Hello, World! This is a sample QR code."] true;
          image png (lit "Example QR Code") (width_px 300);
          caption (lit "This is what your QR code will look like") ]
     ++ page_bottom).
Proof.
  intros Hin Hbs Hy Hpng.
  rewrite (main_run L w bs Hbs), Hin.
  change (truthy (strip [])) with false. cbv iota.
  rewrite (show_example_displays L m png page_top Hy Hpng).
  rewrite <- app_assoc. reflexivity.
Qed.

Lemma empty_input_renders_example_witness :
  dict_get size_mapping (lit "Medium") = Some 10%Z
  /\ encoder_yields sample_library
       (lit "Hello, World! This is a sample QR code.") 10 4 sample_symbol
  /\ shown_images
       (snd (main sample_library (sample_widgets [] (lit "Medium")) []))
     = [(match lib_png sample_library (render 10 4 Black White sample_symbol) with
         | inr png => png
         | inl _ => []
         end, lit "Example QR Code", width_px 300)].
Proof.
  assert (H2 : dict_get size_mapping (lit "Medium") = Some 10%Z)
    by (vm_compute; reflexivity).
  assert (H3 : encoder_yields sample_library
                 (lit "Hello, World! This is a sample QR code.") 10 4
                 sample_symbol)
    by (split; vm_compute; reflexivity).
  split; [exact H2|]. split; [exact H3|].
  rewrite (empty_input_renders_example sample_library
             (sample_widgets [] (lit "Medium")) 10%Z sample_symbol _
             eq_refl H2 H3 eq_refl).
  cbn [snd]. read_trace. reflexivity.
Defined.

(** ** The size selector *)

Lemma qr_setups_app t u : qr_setups (t ++ u) = qr_setups t ++ qr_setups u.
Proof. apply filter_app. Qed.

Lemma one_attempt_setups data size border calls :
  one_attempt data size border calls ->
  qr_setups calls = [call_QRCode 1 ERROR_CORRECT_L size border].
Proof. intros [E | E]; subst calls; reflexivity. Qed.

(** Whatever the libraries do, the branch for a non-blank input sets up one QR
    object, with the box size and border it was given. *)
Lemma show_generated_setups L user_input size_option box_size border t :
  qr_setups (snd (show_generated L user_input size_option box_size border t))
  = qr_setups t ++ [call_QRCode 1 ERROR_CORRECT_L box_size border].
Proof.
  destruct (lib_check L box_size border) as [e|] eqn:Hc;
    [|destruct (lib_symbol L 1 ERROR_CORRECT_L true [user_input]) as [e|m] eqn:Hs].
  - destruct (show_generated_fails L user_input size_option box_size border e t
                (or_introl Hc)) as (calls & Hcalls & Hrun).
    rewrite Hrun. cbn [snd]. rewrite !qr_setups_app.
    rewrite (one_attempt_setups _ _ _ _ Hcalls). reflexivity.
  - destruct (show_generated_fails L user_input size_option box_size border e t
                (or_intror (conj Hc Hs))) as (calls & Hcalls & Hrun).
    rewrite Hrun. cbn [snd]. rewrite !qr_setups_app.
    rewrite (one_attempt_setups _ _ _ _ Hcalls). reflexivity.
  - destruct (lib_png L (render (Z.to_nat box_size) (Z.to_nat border)
                           Black White m)) as [e|png] eqn:Hp.
    + rewrite (show_generated_png_raises L user_input size_option box_size
                 border m e t (conj Hc Hs) Hp).
      cbn [snd]. rewrite qr_setups_app. reflexivity.
    + rewrite (show_generated_displays L user_input size_option box_size
                 border m png t (conj Hc Hs) Hp).
      cbn [snd]. rewrite qr_setups_app. reflexivity.
Qed.

(** Every selectable label is a key of the table. *)
Lemma size_mapping_total label :
  In label size_options ->
  (label = lit "Small" /\ dict_get size_mapping label = Some 5%Z)
  \/ (label = lit "Medium" /\ dict_get size_mapping label = Some 10%Z)
  \/ (label = lit "Large" /\ dict_get size_mapping label = Some 15%Z)
  \/ (label = lit "Extra Large" /\ dict_get size_mapping label = Some 20%Z).
Proof.
  intros [E | [E | [E | [E | []]]]]; subst label;
    [left | right; left | right; right; left | right; right; right];
    split; reflexivity.
Qed.

(** C4: the table has the four selectable labels as its keys, in order, with
    the values 5, 10, 15 and 20; for every selectable label the lookup gives
    the value the table has for it, and that value is the box size of the one
    QR object [main] sets up for a non-blank input. *)
Theorem size_label_selects_box_size L w :
  In (selectbox_value w) size_options ->
  map fst size_mapping = size_options
  /\ map snd size_mapping = [5; 10; 15; 20]%Z
  /\ exists bs,
      dict_get size_mapping (selectbox_value w) = Some bs
      /\ In (selectbox_value w, bs)
            [ (lit "Small", 5%Z); (lit "Medium", 10%Z); (lit "Large", 15%Z);
              (lit "Extra Large", 20%Z) ]
      /\ (truthy (strip (text_area_value w)) = true ->
          qr_setups (snd (main L w []))
          = [call_QRCode 1 ERROR_CORRECT_L bs (slider_value w)]).
Proof.
  intros Hlabel. split; [reflexivity|]. split; [reflexivity|].
  assert (H : exists bs,
             dict_get size_mapping (selectbox_value w) = Some bs
             /\ In (selectbox_value w, bs)
                   [ (lit "Small", 5%Z); (lit "Medium", 10%Z);
                     (lit "Large", 15%Z); (lit "Extra Large", 20%Z) ]).
  { destruct (size_mapping_total _ Hlabel)
      as [[E H] | [[E H] | [[E H] | [E H]]]]; rewrite E in *;
      eexists; (split; [exact H|]); simpl; tauto. }
  destruct H as (bs & Hbs & Htab). exists bs.
  split; [exact Hbs|]. split; [exact Htab|].
  intros Hin. rewrite (main_run L w bs Hbs), Hin.
  pose proof (show_generated_setups L (text_area_value w) (selectbox_value w)
                bs (slider_value w) page_top) as Hs.
  destruct (show_generated L (text_area_value w) (selectbox_value w) bs
              (slider_value w) page_top) as [[u|e] t]; cbn [snd] in *.
  - rewrite qr_setups_app, Hs. reflexivity.
  - exact Hs.
Qed.

Lemma size_label_selects_box_size_witness :
  In (lit "Extra Large") size_options
  /\ dict_get size_mapping (lit "Extra Large") = Some 20%Z
  /\ exists bs,
      dict_get size_mapping (lit "Extra Large") = Some bs
      /\ qr_setups
           (snd (main sample_library
                   (sample_widgets (lit "hello") (lit "Extra Large")) []))
         = [call_QRCode 1 ERROR_CORRECT_L bs 4].
Proof.
  assert (H1 : In (lit "Extra Large") size_options)
    by (right; right; right; left; reflexivity).
  split; [exact H1|]. split; [vm_compute; reflexivity|].
  destruct (size_label_selects_box_size sample_library
              (sample_widgets (lit "hello") (lit "Extra Large")) H1)
    as (_ & _ & bs & Hbs & _ & Hrun).
  exists bs. split; [exact Hbs|]. apply Hrun. vm_compute. reflexivity.
Defined.

(** ** Base64 *)

Lemma below_forallb (n : nat) (P : N -> bool) :
  forallb P (map N.of_nat (seq 0 n)) = true ->
  forall i, (i < N.of_nat n)%N -> P i = true.
Proof.
  intros H i Hi. rewrite forallb_forall in H. apply H.
  rewrite <- (N2Nat.id i). apply in_map. apply in_seq. lia.
Qed.

Lemma b64_index_char i :
  (i < 64)%N -> b64_index (b64_char i) = Some i /\ (b64_char i =? PAD)%N = false.
Proof.
  intros Hi.
  assert (H : sextet_ok i = true).
  { apply (below_forallb 64 sextet_ok); [vm_compute; reflexivity | exact Hi]. }
  unfold sextet_ok in H. destruct (b64_index (b64_char i)) as [j|]; [|discriminate].
  apply andb_prop in H. destruct H as [Hj Hp].
  apply N.eqb_eq in Hj. subst j. split; [reflexivity|].
  now apply negb_true_iff.
Qed.

Lemma octet_pairs (P : N -> N -> bool) :
  octet_pairs_ok P = true ->
  forall a b, (a < 256)%N -> (b < 256)%N -> P a b = true.
Proof.
  intros H a b Ha Hb.
  apply (below_forallb 256 (P a)); [|exact Hb].
  apply (below_forallb 256 (fun a => forallb (P a) (map N.of_nat (seq 0 256))));
    [exact H | exact Ha].
Qed.

Lemma first_sextets a b :
  (a < 256)%N -> (b < 256)%N ->
  (sx0 a < 64)%N /\ (sx1 a b < 64)%N
  /\ N.lor (N.shiftl (sx0 a) 2) (N.shiftr (sx1 a b) 4) = a
  /\ N.lor (N.shiftl (N.land (sx1 a b) 15) 4) (N.shiftr (sx2_last b) 2) = b.
Proof.
  intros Ha Hb.
  assert (H : first_ok a b = true).
  { apply octet_pairs; [vm_compute; reflexivity | exact Ha | exact Hb]. }
  unfold first_ok in H. rewrite !andb_true_iff in H.
  destruct H as [[[H0 H1] H2] H3].
  apply N.ltb_lt in H0, H1. apply N.eqb_eq in H2, H3. auto.
Qed.

Lemma second_sextets b c :
  (b < 256)%N -> (c < 256)%N ->
  (sx2 b c < 64)%N /\ (sx3 c < 64)%N
  /\ N.shiftr (sx2 b c) 2 = N.shiftr (sx2_last b) 2
  /\ N.lor (N.shiftl (N.land (sx2 b c) 3) 6) (sx3 c) = c.
Proof.
  intros Hb Hc.
  assert (H : second_ok b c = true).
  { apply octet_pairs; [vm_compute; reflexivity | exact Hb | exact Hc]. }
  unfold second_ok in H. rewrite !andb_true_iff in H.
  destruct H as [[[H0 H1] H2] H3].
  apply N.ltb_lt in H0, H1. apply N.eqb_eq in H2, H3. auto.
Qed.

Lemma last_sextets a :
  (a < 256)%N ->
  (sx1_last a < 64)%N /\ (sx2_last a < 64)%N
  /\ N.lor (N.shiftl (sx0 a) 2) (N.shiftr (sx1_last a) 4) = a.
Proof.
  intros Ha.
  assert (H : last_ok a = true).
  { apply (below_forallb 256 last_ok); [vm_compute; reflexivity | exact Ha]. }
  unfold last_ok in H. rewrite !andb_true_iff in H.
  destruct H as [[H0 H1] H2].
  apply N.ltb_lt in H0, H1. apply N.eqb_eq in H2. auto.
Qed.

Lemma triples_ind {A} (P : list A -> Prop) :
  P [] -> (forall a, P [a]) -> (forall a b, P [a; b]) ->
  (forall a b c r, P r -> P (a :: b :: c :: r)) ->
  forall l, P l.
Proof.
  intros H0 H1 H2 H3.
  fix IH 1.
  intros [|a [|b [|c r]]];
    [apply H0 | apply H1 | apply H2 | apply H3; apply IH].
Qed.

Lemma b64encode_triple a b c r :
  b64encode (a :: b :: c :: r)
  = b64_char (sx0 a) :: b64_char (sx1 a b) :: b64_char (sx2 b c)
    :: b64_char (sx3 c) :: b64encode r.
Proof. reflexivity. Qed.

Lemma b64decode_b64encode bs :
  octets bs -> b64decode (b64encode bs) = Some bs.
Proof.
  induction bs as [|a|a b|a b c r IH] using triples_ind; intros Hoct.
  - reflexivity.
  - inversion Hoct as [|? ? Ha _]; subst.
    destruct (first_sextets a 0 Ha eq_refl) as (H0 & _).
    destruct (last_sextets a Ha) as (H1 & _ & Ea).
    destruct (b64_index_char _ H0) as [I0 _].
    destruct (b64_index_char _ H1) as [I1 _].
    change (b64encode [a])
      with [b64_char (sx0 a); b64_char (sx1_last a); PAD; PAD].
    cbn [b64decode]. rewrite I0, I1. rewrite N.eqb_refl. rewrite Ea. reflexivity.
  - inversion Hoct as [|? ? Ha Hr]; subst.
    inversion Hr as [|? ? Hb _]; subst.
    destruct (first_sextets a b Ha Hb) as (H0 & H1 & Ea & Eb).
    destruct (last_sextets b Hb) as (_ & H2 & _).
    destruct (b64_index_char _ H0) as [I0 _].
    destruct (b64_index_char _ H1) as [I1 _].
    destruct (b64_index_char _ H2) as [I2 P2].
    change (b64encode [a; b])
      with [b64_char (sx0 a); b64_char (sx1 a b); b64_char (sx2_last b); PAD].
    cbn [b64decode]. rewrite I0, I1, P2, I2, N.eqb_refl, Ea, Eb. reflexivity.
  - inversion Hoct as [|? ? Ha Hr]; subst.
    inversion Hr as [|? ? Hb Hr']; subst.
    inversion Hr' as [|? ? Hc Hr'']; subst.
    destruct (first_sextets a b Ha Hb) as (H0 & H1 & Ea & Eb).
    destruct (second_sextets b c Hb Hc) as (H2 & H3 & E2 & Ec).
    destruct (b64_index_char _ H0) as [I0 _].
    destruct (b64_index_char _ H1) as [I1 _].
    destruct (b64_index_char _ H2) as [I2 P2].
    destruct (b64_index_char _ H3) as [I3 P3].
    rewrite b64encode_triple. cbn [b64decode].
    rewrite I0, I1, P2, I2, P3, I3, (IH Hr''), Ea, E2, Eb, Ec. reflexivity.
Qed.


(** ** The download link *)

(** [main] when the encoder and the PNG serialisation succeed on a non-blank
    input. *)
Lemma main_displays L w bs m png :
  truthy (strip (text_area_value w)) = true ->
  dict_get size_mapping (selectbox_value w) = Some bs ->
  encoder_yields L (text_area_value w) bs (slider_value w) m ->
  lib_png L (render (Z.to_nat bs) (Z.to_nat (slider_value w)) Black White m)
  = inr png ->
  main L w []
  = (Returned tt,
     page_top
     ++ [ enter_spinner (lit "Generating QR code...");
          call_QRCode 1 ERROR_CORRECT_L bs (slider_value w);
          call_make [text_area_value w] true;
          exit_spinner;
          image png (lit "Your QR Code") use_column_width;
          markdown (lit "### Download") false;
          markdown (anchor (b64encode png)
                      (lit "qrcode_" ++ lower (selectbox_value w) ++ lit ".png"))
                   true;
          info ([9989%N] ++ lit " QR Code generated successfully! Size: "
                ++ selectbox_value w ++ lit ", Border: "
                ++ format_int (slider_value w));
          enter_expander (lit "Preview Input Data");
          code (text_area_value w);
          exit_expander ]
     ++ page_bottom).
Proof.
  intros Hin Hbs Hy Hpng.
  rewrite (main_run L w bs Hbs), Hin.
  rewrite (show_generated_displays L _ _ _ _ m png page_top Hy Hpng).
  rewrite <- app_assoc. reflexivity.
Qed.

(** C6: when PIL serialises [img] to the octets [png],
    [get_image_download_link] returns the anchor element whose [href] is the
    data URI of [png] in base64 (decoding it gives [png] back) and whose
    [download] attribute is the file name.  In the Displaying state the one
    piece of raw HTML on the page is that anchor, with the file name
    [qrcode_], the selected label in lower case, [.png]. *)
Theorem download_link_is_base64_anchor L img filename png t :
  lib_png L img = inr png ->
  octets png ->
  (exists data,
      get_image_download_link L img filename t
      = (Returned
           (lit "<a href=" ++ [QUOTE] ++ lit "data:image/png;base64," ++ data
            ++ [QUOTE] ++ lit " download=" ++ [QUOTE] ++ filename ++ [QUOTE]
            ++ lit ">Download QR Code</a>"), t)
      /\ data = b64encode png
      /\ b64decode data = Some png)
  /\ (forall w bs m,
         truthy (strip (text_area_value w)) = true ->
         dict_get size_mapping (selectbox_value w) = Some bs ->
         encoder_yields L (text_area_value w) bs (slider_value w) m ->
         img = render (Z.to_nat bs) (Z.to_nat (slider_value w)) Black White m ->
         shown_html (snd (main L w []))
         = [ lit "<a href=" ++ [QUOTE] ++ lit "data:image/png;base64,"
             ++ b64encode png ++ [QUOTE] ++ lit " download=" ++ [QUOTE]
             ++ (lit "qrcode_" ++ lower (selectbox_value w) ++ lit ".png")
             ++ [QUOTE] ++ lit ">Download QR Code</a>" ])
  /\ map (fun label => lit "qrcode_" ++ lower label ++ lit ".png") size_options
     = [ lit "qrcode_small.png"; lit "qrcode_medium.png";
         lit "qrcode_large.png"; lit "qrcode_extra large.png" ].
Proof.
  intros Hpng Hoct. split; [|split].
  - exists (b64encode png). split; [|split].
    + exact (get_image_download_link_run L img filename png t Hpng).
    + reflexivity.
    + exact (b64decode_b64encode png Hoct).
  - intros w bs m Hin Hbs Hy Himg. subst img.
    rewrite (main_displays L w bs m png Hin Hbs Hy Hpng).
    cbn [snd]. read_trace. reflexivity.
  - vm_compute. reflexivity.
Qed.

Lemma download_link_is_base64_anchor_witness :
  lib_png sample_library [[Black; White]] = inr [137; 80; 78; 71; 0; 255]%N
  /\ octets [137; 80; 78; 71; 0; 255]%N
  /\ fst (get_image_download_link sample_library [[Black; White]]
            (lit "qrcode_small.png") [])
     = Returned
         (lit "<a href=" ++ [QUOTE] ++ lit "data:image/png;base64,iVBORwD/"
          ++ [QUOTE] ++ lit " download=" ++ [QUOTE] ++ lit "qrcode_small.png"
          ++ [QUOTE] ++ lit ">Download QR Code</a>").
Proof.
  assert (H1 : lib_png sample_library [[Black; White]]
               = inr [137; 80; 78; 71; 0; 255]%N) by reflexivity.
  assert (H2 : octets [137; 80; 78; 71; 0; 255]%N)
    by (repeat constructor; reflexivity).
  split; [exact H1|]. split; [exact H2|].
  destruct (download_link_is_base64_anchor sample_library [[Black; White]]
              (lit "qrcode_small.png") _ [] H1 H2)
    as ((data & Hrun & Hdata & _) & _).
  rewrite Hrun, Hdata. reflexivity.
Defined.

(** ** Pictures *)

Lemma flat_map_length_const {A B} (f : A -> list B) (k : nat) (l : list A) :
  (forall x, In x l -> List.length (f x) = k) ->
  List.length (flat_map f l) = (List.length l * k)%nat.
Proof.
  induction l as [|x l IH]; intros H; simpl; [reflexivity|].
  rewrite length_app, (H x (or_introl eq_refl)), IH; [reflexivity|].
  intros y Hy. apply H. now right.
Qed.

Lemma map_flat_map {A B C} (g : B -> C) (f : A -> list B) (l : list A) :
  map g (flat_map f l) = flat_map (fun x => map g (f x)) l.
Proof.
  induction l as [|x l IH]; simpl; [reflexivity|].
  now rewrite map_app, IH.
Qed.

Lemma draw_row_length px margin fill back r :
  List.length (draw_row px margin fill back r)
  = (margin + List.length r * px + margin)%nat.
Proof.
  unfold draw_row. rewrite !length_app, !repeat_length.
  rewrite (flat_map_length_const _ px).
  - lia.
  - intros x _. apply repeat_length.
Qed.

Lemma render_height px bd fill back m :
  height (render px bd fill back m) = ((List.length m + 2 * bd) * px)%nat.
Proof.
  unfold height, render. rewrite !length_app, !repeat_length.
  rewrite (flat_map_length_const _ px).
  - lia.
  - intros x _. apply repeat_length.
Qed.

(** Every pixel row of the picture of a square symbol has the same length. *)
Lemma render_rows px bd fill back m :
  square m ->
  Forall (fun row => List.length row = ((List.length m + 2 * bd) * px)%nat)
         (render px bd fill back m).
Proof.
  intros [_ Hsq]. unfold render.
  rewrite !Forall_app. repeat split.
  - apply Forall_forall. intros row H. apply repeat_spec in H. subst row.
    apply repeat_length.
  - apply Forall_forall. intros row H. apply in_flat_map in H.
    destruct H as (r & Hr & H). apply repeat_spec in H. subst row.
    rewrite draw_row_length.
    rewrite Forall_forall in Hsq. rewrite (Hsq r Hr). lia.
  - apply Forall_forall. intros row H. apply repeat_spec in H. subst row.
    apply repeat_length.
Qed.

Lemma render_width px bd fill back m :
  square m ->
  width (render px bd fill back m) = ((List.length m + 2 * bd) * px)%nat.
Proof.
  intros Hsq.
  pose proof (render_rows px bd fill back m Hsq) as Hrows.
  pose proof (render_height px bd fill back m) as Hh.
  unfold width, height in *.
  destruct (render px bd fill back m) as [|row img]; simpl in *.
  - exact Hh.
  - now inversion Hrows.
Qed.

(** A wider border is a frame around the picture with the narrower one. *)
Lemma render_frame px bd k fill back m :
  square m ->
  render px (bd + k) fill back m
  = frame (k * px) back (render px bd fill back m).
Proof.
  intros Hsq. unfold frame. rewrite (render_width px bd fill back m Hsq).
  unfold render.
  replace ((List.length m + 2 * (bd + k)) * px)%nat
    with (k * px + (List.length m + 2 * bd) * px + k * px)%nat by lia.
  replace ((List.length m + 2 * bd) * px + 2 * (k * px))%nat
    with (k * px + (List.length m + 2 * bd) * px + k * px)%nat by lia.
  set (wide := repeat back (k * px + (List.length m + 2 * bd) * px + k * px)).
  assert (Hblank :
            repeat back (k * px) ++ repeat back ((List.length m + 2 * bd) * px)
            ++ repeat back (k * px) = wide).
  { unfold wide. rewrite <- !repeat_app. f_equal. lia. }
  rewrite !map_app, !map_repeat, Hblank, map_flat_map.
  replace ((bd + k) * px)%nat with (k * px + bd * px)%nat by lia.
  rewrite (repeat_app _ (k * px) (bd * px)) at 1.
  replace (repeat wide (k * px + bd * px))
    with (repeat wide (bd * px) ++ repeat wide (k * px))
    by (rewrite <- repeat_app; f_equal; lia).
  rewrite <- !app_assoc. do 2 f_equal. rewrite !app_assoc. do 2 f_equal.
  apply flat_map_ext. intros r. rewrite map_repeat. f_equal.
  unfold draw_row.
  assert (E1 : repeat back (k * px + bd * px)
               = repeat back (k * px) ++ repeat back (bd * px))
    by apply repeat_app.
  assert (E2 : repeat back (k * px + bd * px)
               = repeat back (bd * px) ++ repeat back (k * px))
    by (rewrite <- repeat_app; f_equal; lia).
  rewrite E1 at 1. rewrite E2. rewrite <- !app_assoc. reflexivity.
Qed.

Lemma firstn_skipn_middle {A} (a b c : list A) (x w : nat) :
  List.length a = x -> List.length b = w ->
  firstn w (skipn x (a ++ b ++ c)) = b.
Proof.
  intros Ha Hb. subst x w.
  rewrite skipn_app, skipn_all, Nat.sub_diag, skipn_0. cbn [app].
  rewrite firstn_app, firstn_all, Nat.sub_diag, firstn_0. apply app_nil_r.
Qed.

Lemma flat_map_ext_in {A B} (f g : A -> list B) (l : list A) :
  (forall x, In x l -> f x = g x) -> flat_map f l = flat_map g l.
Proof.
  induction l as [|x l IH]; intros H; simpl; [reflexivity|].
  rewrite (H x (or_introl eq_refl)), IH; [reflexivity|].
  intros y Hy. apply H. now right.
Qed.

(** The symbol region does not depend on the border. *)
Lemma render_symbol_region px bd fill back m :
  square m ->
  symbol_region px bd (List.length m) (render px bd fill back m)
  = render px 0 fill back m.
Proof.
  intros [_ Hsq]. rewrite Forall_forall in Hsq.
  unfold symbol_region, crop, render.
  set (blank := repeat back ((List.length m + 2 * bd) * px)).
  set (mid := flat_map (fun r => repeat (draw_row px (bd * px) fill back r) px) m).
  assert (Hmid : List.length mid = (List.length m * px)%nat).
  { apply flat_map_length_const. intros x _. apply repeat_length. }
  rewrite (firstn_skipn_middle _ mid _ (bd * px) (List.length m * px)
             (repeat_length _ _) Hmid).
  cbn [Nat.mul repeat app]. rewrite app_nil_r.
  unfold mid. rewrite map_flat_map.
  apply flat_map_ext_in. intros r Hr. rewrite map_repeat. f_equal.
  unfold draw_row. cbn [repeat app]. rewrite app_nil_r.
  apply firstn_skipn_middle; [apply repeat_length|].
  rewrite (flat_map_length_const _ px).
  - now rewrite (Hsq r Hr).
  - intros x _. apply repeat_length.
Qed.

(** ** The picture [generate_qr_code] returns *)

Lemma generate_qr_code_returns_image L data size border t img :
  fst (generate_qr_code L data size border t) = Returned (Some img) ->
  exists m,
    encoder_yields L data size border m
    /\ img = render (Z.to_nat size) (Z.to_nat border) Black White m.
Proof.
  intros H.
  destruct (lib_check L size border) as [e|] eqn:Hc;
    [|destruct (lib_symbol L 1 ERROR_CORRECT_L true [data]) as [e|m] eqn:Hs].
  - destruct (generate_qr_code_fails L data size border e t (or_introl Hc))
      as (calls & _ & Hrun).
    rewrite Hrun in H. discriminate H.
  - destruct (generate_qr_code_fails L data size border e t
                (or_intror (conj Hc Hs))) as (calls & _ & Hrun).
    rewrite Hrun in H. discriminate H.
  - exists m. split; [exact (conj Hc Hs)|].
    rewrite (generate_qr_code_yields L data size border m t (conj Hc Hs)) in H.
    cbn [fst] in H. now inversion H.
Qed.

(** What [generate_qr_code] returns and adds to the trace is fixed by its
    arguments, and it returns: no exception leaves it. *)
Lemma generate_qr_code_run L data size border :
  exists r added,
    forall t, generate_qr_code L data size border t = (Returned r, t ++ added).
Proof.
  destruct (lib_check L size border) as [e|] eqn:Hc;
    [|destruct (lib_symbol L 1 ERROR_CORRECT_L true [data]) as [e|m] eqn:Hs].
  - exists None, [call_QRCode 1 ERROR_CORRECT_L size border; error (banner e)].
    intros t.
    unfold generate_qr_code, try_except, QRCode_new, bind, emit, raise, ret.
    rewrite Hc. unfold banner. same_trace.
  - exists None,
      [call_QRCode 1 ERROR_CORRECT_L size border; call_make [data] true;
       error (banner e)].
    intros t.
    unfold generate_qr_code, try_except, QRCode_new, make, bind, emit, lift,
      raise, ret.
    rewrite Hc. cbn [add_data data_list version error_correction app].
    rewrite Hs. unfold banner. same_trace.
  - eexists _, _. intros t.
    exact (generate_qr_code_yields L data size border m t (conj Hc Hs)).
Qed.

Lemma encoder_yields_same_symbol L data s1 b1 s2 b2 m1 m2 :
  encoder_yields L data s1 b1 m1 -> encoder_yields L data s2 b2 m2 -> m1 = m2.
Proof.
  intros [_ H1] [_ H2]. rewrite H1 in H2. now inversion H2.
Qed.

Lemma sample_symbols_square : symbols_square sample_library.
Proof.
  intros v ec fit ds m H. cbn [lib_symbol sample_library] in H.
  destruct (40 <? List.length (List.concat ds))%nat; [discriminate H|].
  inversion H. split; [discriminate|]. repeat constructor.
Qed.

(** C8: for one payload and one border, the picture returned for a larger
    module size out of 5, 10, 15 and 20 is strictly wider and strictly higher;
    its side is the module size times the side of the symbol with its border. *)
Theorem picture_grows_with_module_size L data border s1 s2 img1 img2 t1 t2 :
  symbols_square L ->
  In s1 [5; 10; 15; 20]%Z -> In s2 [5; 10; 15; 20]%Z -> (s1 < s2)%Z ->
  fst (generate_qr_code L data s1 border t1) = Returned (Some img1) ->
  fst (generate_qr_code L data s2 border t2) = Returned (Some img2) ->
  (width img1 < width img2)%nat
  /\ (height img1 < height img2)%nat
  /\ exists n,
      (0 < n)%nat
      /\ width img1 = ((n + 2 * Z.to_nat border) * Z.to_nat s1)%nat
      /\ height img1 = ((n + 2 * Z.to_nat border) * Z.to_nat s1)%nat
      /\ width img2 = ((n + 2 * Z.to_nat border) * Z.to_nat s2)%nat
      /\ height img2 = ((n + 2 * Z.to_nat border) * Z.to_nat s2)%nat.
Proof.
  intros Hlib Hs1 Hs2 Hlt H1 H2.
  destruct (generate_qr_code_returns_image L data s1 border t1 img1 H1)
    as (m & Hy1 & E1).
  destruct (generate_qr_code_returns_image L data s2 border t2 img2 H2)
    as (m' & Hy2 & E2).
  assert (m' = m)
    by exact (eq_sym (encoder_yields_same_symbol L data _ _ _ _ _ _ Hy1 Hy2)).
  subst m' img1 img2.
  assert (Hsq : square m) by (destruct Hy1 as [_ Hs]; exact (Hlib _ _ _ _ _ Hs)).
  assert (Hn : (0 < List.length m)%nat).
  { destruct Hsq as [Hne _]. destruct m; [contradiction|]. simpl. lia. }
  rewrite !render_width by exact Hsq. rewrite !render_height.
  assert (Hpx : (Z.to_nat s1 < Z.to_nat s2)%nat).
  { simpl in Hs1, Hs2. lia. }
  repeat split.
  - apply Nat.mul_lt_mono_pos_l; lia.
  - apply Nat.mul_lt_mono_pos_l; lia.
  - exists (List.length m). repeat split. exact Hn.
Qed.

Lemma picture_grows_with_module_size_witness :
  symbols_square sample_library
  /\ (5 < 10)%Z
  /\ fst (generate_qr_code sample_library (lit "hi") 5 4 [])
     = Returned (Some (render 5 4 Black White sample_symbol))
  /\ fst (generate_qr_code sample_library (lit "hi") 10 4 [])
     = Returned (Some (render 10 4 Black White sample_symbol))
  /\ (width (render 5 4 Black White sample_symbol)
      < width (render 10 4 Black White sample_symbol))%nat
  /\ (height (render 5 4 Black White sample_symbol)
      < height (render 10 4 Black White sample_symbol))%nat.
Proof.
  assert (H1 : fst (generate_qr_code sample_library (lit "hi") 5 4 [])
               = Returned (Some (render 5 4 Black White sample_symbol)))
    by reflexivity.
  assert (H2 : fst (generate_qr_code sample_library (lit "hi") 10 4 [])
               = Returned (Some (render 10 4 Black White sample_symbol)))
    by reflexivity.
  assert (Hlt : (5 < 10)%Z) by lia.
  destruct (picture_grows_with_module_size sample_library (lit "hi") 4 5 10
              _ _ [] [] sample_symbols_square
              (or_introl eq_refl) (or_intror (or_introl eq_refl)) Hlt H1 H2)
    as (Hw & Hh & _).
  split; [exact sample_symbols_square|]. repeat split; assumption.
Defined.

(** C9: for one payload and one module size, the picture with the border [k]
    modules wider is the picture with the narrower border inside a blank frame
    of [k] modules, that is [k] times the module size in pixels, on each of
    its four sides; the window of the symbol holds the same pixels in both,
    those of the symbol drawn without a border. *)
Theorem wider_border_frames_picture L data size border k img1 img2 t1 t2 :
  symbols_square L ->
  (0 <= border)%Z -> (0 <= k)%Z ->
  fst (generate_qr_code L data size border t1) = Returned (Some img1) ->
  fst (generate_qr_code L data size (border + k) t2) = Returned (Some img2) ->
  img2 = frame (Z.to_nat k * Z.to_nat size) White img1
  /\ width img2 = (width img1 + 2 * (Z.to_nat k * Z.to_nat size))%nat
  /\ height img2 = (height img1 + 2 * (Z.to_nat k * Z.to_nat size))%nat
  /\ exists m,
      encoder_yields L data size border m
      /\ symbol_region (Z.to_nat size) (Z.to_nat border) (List.length m) img1
         = render (Z.to_nat size) 0 Black White m
      /\ symbol_region (Z.to_nat size) (Z.to_nat (border + k)) (List.length m)
           img2
         = render (Z.to_nat size) 0 Black White m.
Proof.
  intros Hlib Hb Hk H1 H2.
  destruct (generate_qr_code_returns_image L data size border t1 img1 H1)
    as (m & Hy1 & E1).
  destruct (generate_qr_code_returns_image L data size (border + k) t2 img2 H2)
    as (m' & Hy2 & E2).
  assert (m' = m)
    by exact (eq_sym (encoder_yields_same_symbol L data _ _ _ _ _ _ Hy1 Hy2)).
  subst m' img1 img2.
  assert (Hsq : square m) by (destruct Hy1 as [_ Hs]; exact (Hlib _ _ _ _ _ Hs)).
  rewrite Z2Nat.inj_add by assumption.
  split; [apply render_frame; exact Hsq|].
  rewrite !render_width by exact Hsq. rewrite !render_height.
  split; [lia|]. split; [lia|].
  exists m. split; [exact Hy1|].
  rewrite !render_symbol_region by exact Hsq. split; reflexivity.
Qed.

Lemma wider_border_frames_picture_witness :
  symbols_square sample_library
  /\ (0 <= 1)%Z /\ (0 <= 2)%Z
  /\ fst (generate_qr_code sample_library (lit "hi") 5 1 [])
     = Returned (Some (render 5 1 Black White sample_symbol))
  /\ fst (generate_qr_code sample_library (lit "hi") 5 (1 + 2) [])
     = Returned (Some (render 5 3 Black White sample_symbol))
  /\ render 5 3 Black White sample_symbol
     = frame 10 White (render 5 1 Black White sample_symbol).
Proof.
  assert (H1 : fst (generate_qr_code sample_library (lit "hi") 5 1 [])
               = Returned (Some (render 5 1 Black White sample_symbol)))
    by reflexivity.
  assert (H2 : fst (generate_qr_code sample_library (lit "hi") 5 (1 + 2) [])
               = Returned (Some (render 5 3 Black White sample_symbol)))
    by reflexivity.
  assert (Hb : (0 <= 1)%Z) by lia.
  assert (Hk : (0 <= 2)%Z) by lia.
  destruct (wider_border_frames_picture sample_library (lit "hi") 5 1 2 _ _
              [] [] sample_symbols_square Hb Hk H1 H2) as (Hf & _).
  split; [exact sample_symbols_square|]. repeat split; assumption.
Defined.

(** * More of the page *)

(** ** The section for a non-blank input, whatever the libraries do *)

Lemma show_generated_cases L user_input size_option box_size border t :
  (exists e calls,
      encoder_fails L user_input box_size border e
      /\ one_attempt user_input box_size border calls
      /\ show_generated L user_input size_option box_size border t
         = (Returned tt, t ++ failed_section calls e))
  \/ (exists m png,
         encoder_yields L user_input box_size border m
         /\ lib_png L (render (Z.to_nat box_size) (Z.to_nat border)
                         Black White m) = inr png
         /\ show_generated L user_input size_option box_size border t
            = (Returned tt,
               t ++ displayed_section user_input size_option box_size border
                      png))
  \/ (exists m e,
         encoder_yields L user_input box_size border m
         /\ lib_png L (render (Z.to_nat box_size) (Z.to_nat border)
                         Black White m) = inl e
         /\ show_generated L user_input size_option box_size border t
            = (Returned tt, t ++ unsaved_section user_input box_size border e)).
Proof.
  destruct (lib_check L box_size border) as [e|] eqn:Hc;
    [|destruct (lib_symbol L 1 ERROR_CORRECT_L true [user_input])
        as [e|m] eqn:Hs].
  - left.
    destruct (show_generated_fails L user_input size_option box_size border e t
                (or_introl Hc)) as (calls & Hcalls & Hrun).
    exists e, calls. repeat split; [now left | exact Hcalls | exact Hrun].
  - left.
    destruct (show_generated_fails L user_input size_option box_size border e t
                (or_intror (conj Hc Hs))) as (calls & Hcalls & Hrun).
    exists e, calls.
    split; [right; split; assumption|]. split; [exact Hcalls | exact Hrun].
  - destruct (lib_png L (render (Z.to_nat box_size) (Z.to_nat border)
                           Black White m)) as [e|png] eqn:Hp.
    + right. right. exists m, e.
      split; [split; assumption|]. split; [exact Hp|].
      exact (show_generated_png_raises L user_input size_option box_size
               border m e t (conj Hc Hs) Hp).
    + right. left. exists m, png.
      split; [split; assumption|]. split; [exact Hp|].
      exact (show_generated_displays L user_input size_option box_size
               border m png t (conj Hc Hs) Hp).
Qed.

(** [main] on a non-blank input and a label of the table: the three pages. *)
Lemma main_nonblank_cases L w bs :
  truthy (strip (text_area_value w)) = true ->
  dict_get size_mapping (selectbox_value w) = Some bs ->
  exists section,
    main L w [] = (Returned tt, page_top ++ section ++ page_bottom)
    /\ ((exists e calls,
            encoder_fails L (text_area_value w) bs (slider_value w) e
            /\ one_attempt (text_area_value w) bs (slider_value w) calls
            /\ section = failed_section calls e)
        \/ (exists m png,
               encoder_yields L (text_area_value w) bs (slider_value w) m
               /\ lib_png L (render (Z.to_nat bs) (Z.to_nat (slider_value w))
                               Black White m) = inr png
               /\ section
                  = displayed_section (text_area_value w) (selectbox_value w)
                      bs (slider_value w) png)
        \/ (exists m e,
               encoder_yields L (text_area_value w) bs (slider_value w) m
               /\ lib_png L (render (Z.to_nat bs) (Z.to_nat (slider_value w))
                               Black White m) = inl e
               /\ section
                  = unsaved_section (text_area_value w) bs (slider_value w) e)).
Proof.
  intros Hin Hbs. rewrite (main_run L w bs Hbs), Hin.
  destruct (show_generated_cases L (text_area_value w) (selectbox_value w) bs
              (slider_value w) page_top)
    as [(e & calls & Hf & Hc & Hrun)
       | [(m & png & Hy & Hp & Hrun) | (m & e & Hy & Hp & Hrun)]];
    rewrite Hrun; eexists; (split; [rewrite <- app_assoc; reflexivity|]).
  - left. exists e, calls. auto.
  - right. left. exists m, png. auto.
  - right. right. exists m, e. auto.
Qed.

Lemma page_frame_read section :
  shown_images (page_top ++ section ++ page_bottom) = shown_images section
  /\ shown_errors (page_top ++ section ++ page_bottom) = shown_errors section
  /\ shown_infos (page_top ++ section ++ page_bottom) = shown_infos section
  /\ shown_html (page_top ++ section ++ page_bottom) = shown_html section
  /\ shown_code (page_top ++ section ++ page_bottom) = shown_code section
  /\ encoder_calls (page_top ++ section ++ page_bottom) = encoder_calls section.
Proof.
  read_trace.
  change (shown_images page_top) with (@nil (pybytes * pystr * image_width)).
  change (shown_images page_bottom) with (@nil (pybytes * pystr * image_width)).
  change (shown_errors page_top) with (@nil pystr).
  change (shown_errors page_bottom) with (@nil pystr).
  change (shown_infos page_top) with (@nil pystr).
  change (shown_infos page_bottom) with (@nil pystr).
  change (shown_html page_top) with (@nil pystr).
  change (shown_html page_bottom) with (@nil pystr).
  change (shown_code page_top) with (@nil pystr).
  change (shown_code page_bottom) with (@nil pystr).
  change (encoder_calls page_top) with (@nil event).
  change (encoder_calls page_bottom) with (@nil event).
  cbn [app]. rewrite !app_nil_r. repeat split.
Qed.

Lemma failed_section_read data size border calls e :
  one_attempt data size border calls ->
  shown_images (failed_section calls e) = []
  /\ shown_errors (failed_section calls e) = [banner e]
  /\ shown_infos (failed_section calls e) = []
  /\ shown_html (failed_section calls e) = []
  /\ shown_code (failed_section calls e) = []
  /\ encoder_calls (failed_section calls e) = calls.
Proof. intros [E | E]; subst calls; repeat split. Qed.

(** X1: on a non-blank input with a selectable label the render cycle always
    ends normally, whatever the libraries do: [main] returns, and the page is
    the fixed top, one section, the fixed bottom. *)
Theorem nonblank_page_completes L w bs :
  truthy (strip (text_area_value w)) = true ->
  dict_get size_mapping (selectbox_value w) = Some bs ->
  fst (main L w []) = Returned tt
  /\ exists section, snd (main L w []) = page_top ++ section ++ page_bottom.
Proof.
  intros Hin Hbs.
  destruct (main_nonblank_cases L w bs Hin Hbs) as (section & Hrun & _).
  rewrite Hrun. split; [reflexivity|]. exists section. reflexivity.
Qed.

Lemma nonblank_page_completes_witness :
  truthy (strip (lit " hi ")) = true
  /\ dict_get size_mapping (lit "Small") = Some 5%Z
  /\ fst (main (stand_in 40 false) (sample_widgets (lit " hi ") (lit "Small")) [])
     = Returned tt.
Proof.
  assert (H1 : truthy (strip (lit " hi ")) = true) by (vm_compute; reflexivity).
  assert (H2 : dict_get size_mapping (lit "Small") = Some 5%Z)
    by (vm_compute; reflexivity).
  split; [exact H1|]. split; [exact H2|].
  exact (proj1 (nonblank_page_completes (stand_in 40 false)
                  (sample_widgets (lit " hi ") (lit "Small")) 5%Z H1 H2)).
Defined.



(** ** When PIL raises *)

(** X3: when the picture of a non-blank input is made and its PNG
    serialisation raises [e], the handler of [main] runs: after the closed
    spinner the page shows the handler's own banner with [str(e)] and the hint
    to try again, no picture and no link, and [main] returns with the bottom
    of the page in place. *)
Theorem png_failure_reaches_handler L w bs m e :
  truthy (strip (text_area_value w)) = true ->
  dict_get size_mapping (selectbox_value w) = Some bs ->
  encoder_yields L (text_area_value w) bs (slider_value w) m ->
  lib_png L (render (Z.to_nat bs) (Z.to_nat (slider_value w)) Black White m)
  = inl e ->
  main L w []
  = (Returned tt,
     page_top
     ++ [ enter_spinner (lit "Generating QR code...");
          call_QRCode 1 ERROR_CORRECT_L bs (slider_value w);
          call_make [text_area_value w] true;
          exit_spinner;
          error ([10060%N] ++ lit " Error generating QR code: " ++ str e);
          info (lit "Please check your input and try again.") ]
     ++ page_bottom).
Proof.
  intros Hin Hbs Hy Hp.
  rewrite (main_run L w bs Hbs), Hin.
  rewrite (show_generated_png_raises L _ (selectbox_value w) _ _ m e page_top
             Hy Hp).
  rewrite <- app_assoc. reflexivity.
Qed.

Lemma png_failure_reaches_handler_witness :
  truthy (strip (lit "hi")) = true
  /\ dict_get size_mapping (lit "Large") = Some 15%Z
  /\ encoder_yields (stand_in 40 false) (lit "hi") 15 4 sample_symbol
  /\ lib_png (stand_in 40 false) (render 15 4 Black White sample_symbol)
     = inl png_error
  /\ shown_infos
       (snd (main (stand_in 40 false) (sample_widgets (lit "hi") (lit "Large")) []))
     = [lit "Please check your input and try again."].
Proof.
  assert (H1 : truthy (strip (lit "hi")) = true) by (vm_compute; reflexivity).
  assert (H2 : dict_get size_mapping (lit "Large") = Some 15%Z)
    by (vm_compute; reflexivity).
  assert (H3 : encoder_yields (stand_in 40 false) (lit "hi") 15 4 sample_symbol)
    by (split; vm_compute; reflexivity).
  assert (H4 : lib_png (stand_in 40 false)
                 (render 15 4 Black White sample_symbol) = inl png_error)
    by reflexivity.
  split; [exact H1|]. split; [exact H2|]. split; [exact H3|].
  split; [exact H4|].
  rewrite (png_failure_reaches_handler (stand_in 40 false)
             (sample_widgets (lit "hi") (lit "Large")) 15%Z sample_symbol
             png_error H1 H2 H3 H4).
  cbn [snd]. read_trace. reflexivity.
Defined.

(** X4: on a blank input the example is drawn outside any [try]: when the
    PNG serialisation of the example's picture raises [e], the exception
    leaves [main].  The page stops after the placeholder and the "Example"
    heading, with no picture, no error message and no bottom part. *)
Theorem example_png_failure_leaves_main L w bs m e :
  forallb isspace (text_area_value w) = true ->
  dict_get size_mapping (selectbox_value w) = Some bs ->
  encoder_yields L example_text 10 4 m ->
  lib_png L (render 10 4 Black White m) = inl e ->
  main L w []
  = (Raised e,
     page_top
     ++ [ info placeholder;
          markdown (lit "### Example") false;
          call_QRCode 1 ERROR_CORRECT_L 10 4;
          call_make [example_text] true ])
  /\ shown_errors (snd (main L w [])) = []
  /\ shown_images (snd (main L w [])) = []
  /\ ~ In (markdown about_text false) (snd (main L w [])).
Proof.
  intros Hblank Hbs Hy Hp.
  assert (Hin : truthy (strip (text_area_value w)) = false)
    by now apply strip_blank.
  assert (Hrun : main L w []
                 = (Raised e,
                    page_top
                    ++ [ info placeholder;
                         markdown (lit "### Example") false;
                         call_QRCode 1 ERROR_CORRECT_L 10 4;
                         call_make [example_text] true ])).
  { rewrite (main_run L w bs Hbs), Hin.
    rewrite (show_example_png_raises L m e page_top Hy Hp). reflexivity. }
  rewrite Hrun. cbn [snd]. split; [reflexivity|].
  split; [reflexivity|]. split; [reflexivity|].
  intros H. apply in_app_or in H. destruct H as [H | H].
  - revert H. clear. unfold page_top. simpl. intuition discriminate.
  - simpl in H. intuition discriminate.
Qed.

Lemma example_png_failure_leaves_main_witness :
  forallb isspace [] = true
  /\ dict_get size_mapping (lit "Medium") = Some 10%Z
  /\ encoder_yields (stand_in 40 false) example_text 10 4 sample_symbol
  /\ lib_png (stand_in 40 false) (render 10 4 Black White sample_symbol)
     = inl png_error
  /\ fst (main (stand_in 40 false) (sample_widgets [] (lit "Medium")) [])
     = Raised png_error.
Proof.
  assert (H1 : forallb isspace [] = true) by reflexivity.
  assert (H2 : dict_get size_mapping (lit "Medium") = Some 10%Z)
    by (vm_compute; reflexivity).
  assert (H3 : encoder_yields (stand_in 40 false) example_text 10 4
                 sample_symbol)
    by (split; vm_compute; reflexivity).
  assert (H4 : lib_png (stand_in 40 false)
                 (render 10 4 Black White sample_symbol) = inl png_error)
    by reflexivity.
  split; [exact H1|]. split; [exact H2|]. split; [exact H3|].
  split; [exact H4|].
  destruct (example_png_failure_leaves_main (stand_in 40 false)
              (sample_widgets [] (lit "Medium")) 10%Z sample_symbol png_error
              H1 H2 H3 H4) as (Hrun & _).
  rewrite Hrun. reflexivity.
Defined.

(** ** When the example cannot be encoded *)

(** X5: on a blank input, when the QR library raises [e] for the example,
    the page shows the placeholder, the "Example" heading and the banner of
    [generate_qr_code] with the library's message in place of the picture, and
    [main] returns with the bottom of the page in place. *)
Theorem example_encoder_failure_shows_banner L w bs e :
  forallb isspace (text_area_value w) = true ->
  dict_get size_mapping (selectbox_value w) = Some bs ->
  encoder_fails L example_text 10 4 e ->
  (exists calls,
      one_attempt example_text 10 4 calls
      /\ main L w []
         = (Returned tt,
            page_top
            ++ [info placeholder; markdown (lit "### Example") false]
            ++ calls
            ++ [error (lit "Error generating QR code: " ++ str e)]
            ++ page_bottom))
  /\ shown_images (snd (main L w [])) = []
  /\ shown_errors (snd (main L w []))
     = [lit "Error generating QR code: " ++ str e].
Proof.
  intros Hblank Hbs Hf.
  assert (Hin : truthy (strip (text_area_value w)) = false)
    by now apply strip_blank.
  destruct (show_example_fails L e page_top Hf) as (calls & Hc & Hrun).
  assert (Hmain : main L w []
                  = (Returned tt,
                     page_top
                     ++ [info placeholder; markdown (lit "### Example") false]
                     ++ calls
                     ++ [error (lit "Error generating QR code: " ++ str e)]
                     ++ page_bottom)).
  { rewrite (main_run L w bs Hbs), Hin, Hrun. unfold placeholder, banner.
    rewrite <- !app_assoc. reflexivity. }
  split; [exists calls; split; [exact Hc | exact Hmain]|].
  rewrite Hmain. cbn [snd].
  destruct (one_attempt_read _ _ _ _ Hc) as (_ & He & _ & Him & _).
  read_trace. rewrite He, Him. split; reflexivity.
Qed.

Lemma example_encoder_failure_shows_banner_witness :
  forallb isspace (lit " ") = true
  /\ dict_get size_mapping (lit "Medium") = Some 10%Z
  /\ encoder_fails (stand_in 10 true) example_text 10 4 data_overflow
  /\ shown_errors
       (snd (main (stand_in 10 true) (sample_widgets (lit " ") (lit "Medium")) []))
     = [lit "Error generating QR code: data overflow"].
Proof.
  assert (H1 : forallb isspace (lit " ") = true) by (vm_compute; reflexivity).
  assert (H2 : dict_get size_mapping (lit "Medium") = Some 10%Z)
    by (vm_compute; reflexivity).
  assert (H3 : encoder_fails (stand_in 10 true) example_text 10 4 data_overflow)
    by (right; split; vm_compute; reflexivity).
  split; [exact H1|]. split; [exact H2|]. split; [exact H3|].
  exact (proj2 (proj2 (example_encoder_failure_shows_banner (stand_in 10 true)
                         (sample_widgets (lit " ") (lit "Medium")) 10%Z
                         data_overflow H1 H2 H3))).
Defined.

(** ** What is encoded and previewed *)

(** X6: in the Displaying state the text handed to the QR library and the
    text in the preview are the input as typed, leading and trailing
    whitespace included: [strip()] decides the branch only.  The page shows
    the PNG of the picture once, no error, and the line naming the selected
    label and the border. *)
Theorem displayed_page_keeps_raw_input L w bs m png :
  truthy (strip (text_area_value w)) = true ->
  dict_get size_mapping (selectbox_value w) = Some bs ->
  encoder_yields L (text_area_value w) bs (slider_value w) m ->
  lib_png L (render (Z.to_nat bs) (Z.to_nat (slider_value w)) Black White m)
  = inr png ->
  encoder_calls (snd (main L w []))
  = [ call_QRCode 1 ERROR_CORRECT_L bs (slider_value w);
      call_make [text_area_value w] true ]
  /\ shown_code (snd (main L w [])) = [text_area_value w]
  /\ shown_images (snd (main L w []))
     = [(png, lit "Your QR Code", use_column_width)]
  /\ shown_errors (snd (main L w [])) = []
  /\ shown_infos (snd (main L w []))
     = [ [9989%N] ++ lit " QR Code generated successfully! Size: "
         ++ selectbox_value w ++ lit ", Border: "
         ++ format_int (slider_value w) ].
Proof.
  intros Hin Hbs Hy Hp.
  rewrite (main_displays L w bs m png Hin Hbs Hy Hp). cbn [snd].
  repeat split; read_trace; reflexivity.
Qed.

Lemma displayed_page_keeps_raw_input_witness :
  truthy (strip (lit "  hi ")) = true
  /\ dict_get size_mapping (lit "Small") = Some 5%Z
  /\ encoder_yields sample_library (lit "  hi ") 5 4 sample_symbol
  /\ shown_code
       (snd (main sample_library (sample_widgets (lit "  hi ") (lit "Small")) []))
     = [lit "  hi "]
  /\ shown_infos
       (snd (main sample_library (sample_widgets (lit "  hi ") (lit "Small")) []))
     = [ [9989%N]
         ++ lit " QR Code generated successfully! Size: Small, Border: 4" ].
Proof.
  assert (H1 : truthy (strip (lit "  hi ")) = true) by (vm_compute; reflexivity).
  assert (H2 : dict_get size_mapping (lit "Small") = Some 5%Z)
    by (vm_compute; reflexivity).
  assert (H3 : encoder_yields sample_library (lit "  hi ") 5 4 sample_symbol)
    by (split; vm_compute; reflexivity).
  split; [exact H1|]. split; [exact H2|]. split; [exact H3|].
  destruct (displayed_page_keeps_raw_input sample_library
              (sample_widgets (lit "  hi ") (lit "Small")) 5%Z sample_symbol _
              H1 H2 H3 eq_refl) as (_ & Hcode & _ & _ & Hinfo).
  split; [exact Hcode|]. rewrite Hinfo. vm_compute. reflexivity.
Defined.

(** ** Which branch *)

(** X7: with a selectable label, the placeholder is on the page exactly when
    the input is empty or all whitespace. *)
Theorem placeholder_iff_blank L w bs :
  dict_get size_mapping (selectbox_value w) = Some bs ->
  In (info placeholder) (snd (main L w []))
  <-> forallb isspace (text_area_value w) = true.
Proof.
  intros Hbs. split.
  - intros H. apply strip_blank.
    destruct (truthy (strip (text_area_value w))) eqn:Hin; [|reflexivity].
    exfalso. apply shown_infos_in in H. revert H.
    destruct (main_nonblank_cases L w bs Hin Hbs)
      as (section & Hrun & [(e & calls & _ & Hc & E)
                           | [(m & png & _ & _ & E) | (m & e & _ & _ & E)]]);
      rewrite Hrun; cbn [snd];
      destruct (page_frame_read section) as (_ & _ & Hi & _);
      rewrite Hi; subst section.
    + destruct (failed_section_read _ _ _ calls e Hc) as (_ & _ & A & _).
      rewrite A. intros [].
    + intros [H | []]. unfold placeholder in H. cbn [app] in H.
      discriminate H.
    + intros [H | []]. unfold placeholder, retry_hint in H. vm_compute in H.
      discriminate H.
  - intros Hblank. apply strip_blank in Hblank.
    destruct (main_blank_any L w bs Hblank Hbs) as (rest & tail & Ht & _).
    rewrite Ht. apply in_or_app. right. now left.
Qed.

Lemma placeholder_iff_blank_witness :
  dict_get size_mapping (lit "Medium") = Some 10%Z
  /\ In (info placeholder)
        (snd (main sample_library (sample_widgets [9; 32; 10]%N (lit "Medium")) []))
  /\ ~ In (info placeholder)
         (snd (main sample_library (sample_widgets (lit " a ") (lit "Medium")) [])).
Proof.
  assert (H : dict_get size_mapping (lit "Medium") = Some 10%Z)
    by (vm_compute; reflexivity).
  split; [exact H|]. split.
  - apply (placeholder_iff_blank sample_library
             (sample_widgets [9; 32; 10]%N (lit "Medium")) 10%Z H).
    vm_compute. reflexivity.
  - intros Hin.
    apply (placeholder_iff_blank sample_library
             (sample_widgets (lit " a ") (lit "Medium")) 10%Z H) in Hin.
    vm_compute in Hin. discriminate Hin.
Defined.

(** ** A label outside the table *)

Lemma pystr_eqb_eq a b : pystr_eqb a b = true <-> a = b.
Proof.
  unfold pystr_eqb. destruct (list_eq_dec N.eq_dec a b); split;
    intros H; auto; discriminate H.
Qed.

(** The lookup succeeds on the selectable labels only. *)
Lemma dict_get_size_mapping_none label :
  ~ In label size_options -> dict_get size_mapping label = None.
Proof.
  intros Hnot. unfold size_mapping, dict_get.
  repeat match goal with
  | |- context [pystr_eqb ?k label] =>
      destruct (pystr_eqb k label) eqn:E;
        [apply pystr_eqb_eq in E; exfalso; apply Hnot; rewrite <- E;
         unfold size_options; simpl; tauto | clear E]
  end.
  reflexivity.
Qed.

(** X8: the lookup is by exact key.  When the selected label is none of the
    four of the table, [main] raises [KeyError] for it inside the first
    column: the column is closed, the page stops there with no border slider,
    no heading of the result section and no bottom part, and the QR library
    is not called. *)
Theorem unknown_label_raises_key_error L w :
  ~ In (selectbox_value w) size_options ->
  main L w [] = (Raised (KeyError (selectbox_value w)), firstn 10 page_top)
  /\ last (snd (main L w [])) exit_column = exit_column
  /\ encoder_calls (snd (main L w [])) = []
  /\ ~ In (header (lit "Generated QR Code")) (snd (main L w [])).
Proof.
  intros Hnot. apply dict_get_size_mapping_none in Hnot.
  assert (Hrun : main L w []
                 = (Raised (KeyError (selectbox_value w)), firstn 10 page_top)).
  { unfold main, bind, emit, with_block, subscript, raise.
    run_steps. rewrite Hnot. reflexivity. }
  rewrite Hrun. cbn [snd]. split; [reflexivity|].
  split; [reflexivity|]. split; [reflexivity|].
  unfold page_top. simpl. intuition discriminate.
Qed.

Lemma unknown_label_raises_key_error_witness :
  ~ In (lit "small") size_options
  /\ fst (main sample_library (sample_widgets (lit "hi") (lit "small")) [])
     = Raised (KeyError (lit "small")).
Proof.
  assert (H : ~ In (lit "small") size_options).
  { vm_compute. intuition discriminate. }
  split; [exact H|].
  destruct (unknown_label_raises_key_error sample_library
              (sample_widgets (lit "hi") (lit "small")) H) as (Hrun & _).
  rewrite Hrun. reflexivity.
Defined.

(** ** When the render cycle is cut short *)

(** X9: an exception leaves [main] in two situations only: the selected label
    is not a key of the table ([KeyError]), or the input is blank and the PNG
    serialisation of the example's picture raises.  Nothing the libraries do
    on a non-blank input, and no failure of the QR library on any input, cuts
    the render cycle short. *)
Theorem main_raises_only_two_ways L w e :
  fst (main L w []) = Raised e ->
  (~ In (selectbox_value w) size_options /\ e = KeyError (selectbox_value w))
  \/ (In (selectbox_value w) size_options
      /\ forallb isspace (text_area_value w) = true
      /\ exists m,
          encoder_yields L example_text 10 4 m
          /\ lib_png L (render 10 4 Black White m) = inl e).
Proof.
  intros H.
  destruct (in_dec (list_eq_dec N.eq_dec) (selectbox_value w) size_options)
    as [Hlabel | Hnot].
  - right. split; [exact Hlabel|].
    assert (Hbs : exists bs, dict_get size_mapping (selectbox_value w) = Some bs).
    { destruct (size_mapping_total _ Hlabel)
        as [[_ E] | [[_ E] | [[_ E] | [_ E]]]]; eexists; exact E. }
    destruct Hbs as (bs & Hbs).
    destruct (truthy (strip (text_area_value w))) eqn:Hin.
    + destruct (main_nonblank_cases L w bs Hin Hbs) as (section & Hrun & _).
      rewrite Hrun in H. discriminate H.
    + split; [now apply strip_blank|].
      rewrite (main_run L w bs Hbs), Hin in H.
      destruct (lib_check L 10 4) as [e'|] eqn:Hc;
        [|destruct (lib_symbol L 1 ERROR_CORRECT_L true [example_text])
            as [e'|m] eqn:Hs].
      * destruct (show_example_fails L e' page_top (or_introl Hc))
          as (calls & _ & Hrun).
        rewrite Hrun in H. discriminate H.
      * destruct (show_example_fails L e' page_top (or_intror (conj Hc Hs)))
          as (calls & _ & Hrun).
        rewrite Hrun in H. discriminate H.
      * destruct (lib_png L (render 10 4 Black White m)) as [e'|png] eqn:Hp.
        -- rewrite (show_example_png_raises L m e' page_top (conj Hc Hs) Hp)
             in H.
           cbn [fst] in H. inversion H. subst e'.
           exists m. split; [split; assumption | exact Hp].
        -- rewrite (show_example_displays L m png page_top (conj Hc Hs) Hp)
             in H.
           discriminate H.
  - left. split; [exact Hnot|].
    rewrite (main_key_error L w (dict_get_size_mapping_none _ Hnot)) in H.
    now inversion H.
Qed.

Lemma main_raises_only_two_ways_witness :
  fst (main (stand_in 40 false) (sample_widgets [] (lit "Medium")) [])
  = Raised png_error
  /\ forallb isspace [] = true
  /\ exists m,
      encoder_yields (stand_in 40 false) example_text 10 4 m
      /\ lib_png (stand_in 40 false) (render 10 4 Black White m)
         = inl png_error.
Proof.
  assert (H : fst (main (stand_in 40 false) (sample_widgets [] (lit "Medium")) [])
              = Raised png_error) by (vm_compute; reflexivity).
  split; [exact H|].
  destruct (main_raises_only_two_ways (stand_in 40 false)
              (sample_widgets [] (lit "Medium")) png_error H)
    as [[Hnot _] | (_ & Hblank & Hm)].
  - exfalso. apply Hnot. vm_compute. tauto.
  - split; [exact Hblank | exact Hm].
Defined.

(** ** The text of the link *)

Lemma b64_char_in_alphabet i : In (b64_char i) b64_alphabet \/ b64_char i = PAD.
Proof.
  unfold b64_char.
  destruct (nth_in_or_default (N.to_nat i) b64_alphabet PAD); auto.
Qed.

Lemma b64encode_chars bs :
  Forall (fun c => In c b64_alphabet \/ c = PAD) (b64encode bs).
Proof.
  induction bs as [|a|a b|a b c r IH] using triples_ind.
  - apply Forall_nil.
  - change (b64encode [a])
      with [b64_char (sx0 a); b64_char (sx1_last a); PAD; PAD].
    repeat (apply Forall_cons;
            [first [apply b64_char_in_alphabet | right; reflexivity]|]).
    apply Forall_nil.
  - change (b64encode [a; b])
      with [b64_char (sx0 a); b64_char (sx1 a b); b64_char (sx2_last b); PAD].
    repeat (apply Forall_cons;
            [first [apply b64_char_in_alphabet | right; reflexivity]|]).
    apply Forall_nil.
  - rewrite b64encode_triple.
    do 4 (apply Forall_cons; [apply b64_char_in_alphabet|]). exact IH.
Qed.

Lemma b64encode_length bs :
  List.length (b64encode bs) = (4 * ((List.length bs + 2) / 3))%nat.
Proof.
  induction bs as [|a|a b|a b c r IH] using triples_ind; try reflexivity.
  rewrite b64encode_triple. cbn [List.length]. rewrite IH.
  replace (S (S (S (List.length r))) + 2)%nat
    with (1 * 3 + (List.length r + 2))%nat by lia.
  rewrite Nat.div_add_l by discriminate. lia.
Qed.

Lemma quote_not_base64 : ~ (In QUOTE b64_alphabet \/ QUOTE = PAD).
Proof.
  intros [H | H]; [|discriminate H].
  assert (E : existsb (N.eqb QUOTE) b64_alphabet = true).
  { apply existsb_exists. exists QUOTE. split; [exact H | apply N.eqb_refl]. }
  vm_compute in E. discriminate E.
Qed.

(** X10: whatever the octets of the PNG, the data of the link
    [get_image_download_link] returns is made of characters of the base64
    alphabet and [=] only, four for every three octets rounded up: no quote in
    it can end the [href] attribute early.  The file names [main] builds from
    the selectable labels hold no quote either. *)
Theorem download_link_data_is_base64_text L img filename png t :
  lib_png L img = inr png ->
  (exists data,
      get_image_download_link L img filename t
      = (Returned
           (lit "<a href=" ++ [QUOTE] ++ lit "data:image/png;base64," ++ data
            ++ [QUOTE] ++ lit " download=" ++ [QUOTE] ++ filename ++ [QUOTE]
            ++ lit ">Download QR Code</a>"), t)
      /\ Forall (fun c => In c b64_alphabet \/ c = PAD) data
      /\ ~ In QUOTE data
      /\ List.length data = (4 * ((List.length png + 2) / 3))%nat)
  /\ (forall label,
         In label size_options ->
         ~ In QUOTE (lit "qrcode_" ++ lower label ++ lit ".png")).
Proof.
  intros Hpng. split.
  - exists (b64encode png). split; [|split; [|split]].
    + exact (get_image_download_link_run L img filename png t Hpng).
    + apply b64encode_chars.
    + intros H. pose proof (b64encode_chars png) as Hall.
      rewrite Forall_forall in Hall. exact (quote_not_base64 (Hall _ H)).
    + apply b64encode_length.
  - intros label [E | [E | [E | [E | []]]]]; subst label; intros H;
      assert (Hb : existsb (N.eqb QUOTE) (lit "qrcode_" ++ lower _ ++ lit ".png")
                   = true)
        by (apply existsb_exists; exists QUOTE;
            split; [exact H | apply N.eqb_refl]);
      vm_compute in Hb; discriminate Hb.
Qed.

Lemma download_link_data_is_base64_text_witness :
  lib_png sample_library [[Black]] = inr [137; 80; 78; 71; 0]%N
  /\ exists data,
      fst (get_image_download_link sample_library [[Black]] (lit "a.png") [])
      = Returned (anchor data (lit "a.png"))
      /\ List.length data = 8%nat.
Proof.
  assert (H : lib_png sample_library [[Black]] = inr [137; 80; 78; 71; 0]%N)
    by reflexivity.
  split; [exact H|].
  destruct (download_link_data_is_base64_text sample_library [[Black]]
              (lit "a.png") _ [] H) as ((data & Hrun & _ & _ & Hlen) & _).
  exists data. rewrite Hrun. split; [reflexivity | exact Hlen].
Defined.

(** ** The picture as a framed symbol *)

(** X11: with the rasterisation modelled from the glossary and a library that
    hands out square symbols, every picture [generate_qr_code] returns is the
    symbol drawn black on white without a border, inside a white frame of
    border times module size pixels on each side; it is square and all its
    pixel rows have the same length. *)
Theorem picture_is_framed_symbol L data size border t img :
  symbols_square L ->
  fst (generate_qr_code L data size border t) = Returned (Some img) ->
  (exists m,
      encoder_yields L data size border m
      /\ img = frame (Z.to_nat border * Z.to_nat size) White
                 (render (Z.to_nat size) 0 Black White m))
  /\ width img = height img
  /\ Forall (fun row => List.length row = width img) img.
Proof.
  intros Hlib H.
  destruct (generate_qr_code_returns_image L data size border t img H)
    as (m & Hy & E).
  assert (Hsq : square m) by (destruct Hy as [_ Hs]; exact (Hlib _ _ _ _ _ Hs)).
  subst img. split; [|split].
  - exists m. split; [exact Hy|].
    exact (render_frame (Z.to_nat size) 0 (Z.to_nat border) Black White m Hsq).
  - rewrite render_width by exact Hsq. now rewrite render_height.
  - rewrite render_width by exact Hsq. apply render_rows. exact Hsq.
Qed.

Lemma picture_is_framed_symbol_witness :
  symbols_square sample_library
  /\ fst (generate_qr_code sample_library (lit "hi") 5 2 [])
     = Returned (Some (render 5 2 Black White sample_symbol))
  /\ width (render 5 2 Black White sample_symbol)
     = height (render 5 2 Black White sample_symbol).
Proof.
  assert (H : fst (generate_qr_code sample_library (lit "hi") 5 2 [])
              = Returned (Some (render 5 2 Black White sample_symbol)))
    by reflexivity.
  split; [exact sample_symbols_square|]. split; [exact H|].
  exact (proj1 (proj2 (picture_is_framed_symbol sample_library (lit "hi") 5 2
                         [] _ sample_symbols_square H))).
Defined.
